(** * Session.cpp of the LGE fingerprint AIDL service: a shallow embedding

    The session adapts the AIDL fingerprint interface to the legacy
    [fingerprint_device_t] driver.  This development embeds
    [src/aidl/fingerprint/Session.cpp] function by function and proves the
    behaviour of the translators, the event dispatcher, the session
    operations and the lockout timer.

    Conventions.
    - [int32_t] values are [Z]; the one arithmetic operation of the file
      (the subtraction of the vendor base) is wrapped to 32 bits.
    - Everything a function does besides computing is recorded, in program
      order, in a list of [effect]s: log lines, driver calls, client
      callbacks, the lockout tracker reset, the release of the death
      recipient and the start of a detached thread.
    - The constants of [<hardware/fingerprint.h>] are not part of this
      repository; they are the fields of the class [fingerprint_h].
    - The legacy driver and the lockout tracker are collaborators: the
      driver is a state machine behind [fingerprint_device_t], the tracker
      a type with its [reset].
    - A member function that dereferences a null [mSessionCallback], or
      whose behaviour is undefined, has no result ([None]).
    - [Session::enroll] and the constructor are left out: their bodies use
      names the file does not declare ([ErrorFilter], [gid], [timeoutSec],
      [out]) or return a value from a constructor. *)

From Stdlib Require Import ZArith List String Bool Lia.
Import ListNotations.
Local Open Scope Z_scope.

(** ** The AIDL vocabulary *)

Module Error.
(** [aidl::android::hardware::biometrics::fingerprint::Error], the kinds
    the session names. *)
Inductive t : Set :=
| HW_UNAVAILABLE
| UNABLE_TO_PROCESS
| TIMEOUT
| NO_SPACE
| CANCELED
| UNABLE_TO_REMOVE
| VENDOR.
End Error.

Module AcquiredInfo.
(** [AcquiredInfo], the kinds the session names. *)
Inductive t : Set :=
| GOOD
| PARTIAL
| INSUFFICIENT
| SENSOR_DIRTY
| TOO_SLOW
| TOO_FAST
| VENDOR.
End AcquiredInfo.

(** [ndk::ScopedAStatus], as far as the session builds it. *)
Inductive ScopedAStatus : Set :=
| ok
| fromExceptionCode (code : Z).

(** [EX_UNSUPPORTED_OPERATION] of the binder status codes. *)
Definition EX_UNSUPPORTED_OPERATION : Z := -7.

(** A [std::shared_ptr<ISessionCallback>] that is not null designates a
    client callback object; the number tells the objects apart. *)
Definition ISessionCallback : Set := nat.

(** The methods of [ISessionCallback] the session invokes, with their
    arguments. *)
Inductive callback : Set :=
| onChallengeGenerated (challenge : Z)
| onChallengeRevoked (challenge : Z)
| onError (error : Error.t) (vendorCode : Z)
| onAcquired (info : AcquiredInfo.t) (vendorCode : Z)
| onEnrollmentProgress (remaining : Z)
| onEnrollmentsRemoved (enrollmentIds : list Z)
| onEnrollmentsEnumerated (enrollmentIds : list Z)
| onAuthenticationSucceeded (enrollmentId : Z) (hat : list Byte.byte)
| onAuthenticationFailed
| onLockoutPermanent
| onLockoutCleared
| onAuthenticatorIdRetrieved (authenticatorId : Z)
| onAuthenticatorIdInvalidated (authenticatorId : Z)
| onSessionClosed.

(** The entries of [fingerprint_device_t] the session calls, with their
    arguments ([mDevice] itself, always the first argument, is left out). *)
Inductive driver_call : Set :=
| call_pre_enroll
| call_post_enroll
| call_authenticate (operationId : Z) (gid : Z)
| call_enumerate
| call_remove (gid : Z) (fid : Z)
| call_get_authenticator_id.

Inductive log_priority : Set := ALOGD | ALOGI | ALOGE | LOG_INFO.

Inductive log_arg : Set :=
| arg_int (z : Z)
| arg_error (e : Error.t)
| arg_acquired (a : AcquiredInfo.t).

(** What a function of the session does to the world around it. *)
Inductive effect : Set :=
| Log (prio : log_priority) (fmt : string) (args : list log_arg)
| Driver (c : driver_call)
| Client (cb : ISessionCallback) (c : callback)
| LockoutTracker_reset (clearAttemptCounter : bool)
| AIBinder_DeathRecipient_delete
| Thread_detach (timeout : Z).

Definition trace : Set := list effect.

(** The client callbacks of a trace, in order. *)
Fixpoint client_calls (tr : trace) : list callback :=
  match tr with
  | [] => []
  | Client _ c :: tr' => c :: client_calls tr'
  | _ :: tr' => client_calls tr'
  end.

(** The driver calls of a trace, in order. *)
Fixpoint driver_calls (tr : trace) : list driver_call :=
  match tr with
  | [] => []
  | Driver c :: tr' => c :: driver_calls tr'
  | _ :: tr' => driver_calls tr'
  end.

(** The lockout tracker resets of a trace, in order. *)
Fixpoint tracker_resets (tr : trace) : list bool :=
  match tr with
  | [] => []
  | LockoutTracker_reset b :: tr' => b :: tracker_resets tr'
  | _ :: tr' => tracker_resets tr'
  end.

Definition is_onError (c : callback) : bool :=
  match c with onError _ _ => true | _ => false end.

Definition is_onSessionClosed (c : callback) : bool :=
  match c with onSessionClosed => true | _ => false end.

Definition is_onAuthenticationSucceeded (c : callback) : bool :=
  match c with onAuthenticationSucceeded _ _ => true | _ => false end.

(** How many callbacks of a trace satisfy [p]. *)
Definition count_calls (p : callback -> bool) (tr : trace) : nat :=
  List.length (List.filter p (client_calls tr)).

(** ** 32-bit integers *)

Definition INT32_MIN : Z := -2147483648.
Definition INT32_MAX : Z := 2147483647.

Definition is_int32 (z : Z) : bool := (INT32_MIN <=? z) && (z <=? INT32_MAX).

(** The value an [int32_t] holds after an operation whose exact result is
    [z]. *)
Definition wrap_int32 (z : Z) : Z :=
  (z + 2147483648) mod 4294967296 - 2147483648.

(** ** The legacy header *)

(** The enumerators of [<hardware/fingerprint.h>] that [Session.cpp] uses.
    The header belongs to the platform, not to this repository, so the
    values are parameters. *)
Class fingerprint_h : Set := {
  FINGERPRINT_ERROR_HW_UNAVAILABLE : Z;
  FINGERPRINT_ERROR_UNABLE_TO_PROCESS : Z;
  FINGERPRINT_ERROR_TIMEOUT : Z;
  FINGERPRINT_ERROR_NO_SPACE : Z;
  FINGERPRINT_ERROR_CANCELED : Z;
  FINGERPRINT_ERROR_UNABLE_TO_REMOVE : Z;
  FINGERPRINT_ERROR_LOCKOUT : Z;
  FINGERPRINT_ERROR_VENDOR_BASE : Z;
  FINGERPRINT_ACQUIRED_GOOD : Z;
  FINGERPRINT_ACQUIRED_PARTIAL : Z;
  FINGERPRINT_ACQUIRED_INSUFFICIENT : Z;
  FINGERPRINT_ACQUIRED_IMAGER_DIRTY : Z;
  FINGERPRINT_ACQUIRED_TOO_SLOW : Z;
  FINGERPRINT_ACQUIRED_TOO_FAST : Z;
  FINGERPRINT_ACQUIRED_VENDOR_BASE : Z
}.

(** The values the Android platform header gives them. *)
Definition platform_header : fingerprint_h := {|
  FINGERPRINT_ERROR_HW_UNAVAILABLE := 1;
  FINGERPRINT_ERROR_UNABLE_TO_PROCESS := 2;
  FINGERPRINT_ERROR_TIMEOUT := 3;
  FINGERPRINT_ERROR_NO_SPACE := 4;
  FINGERPRINT_ERROR_CANCELED := 5;
  FINGERPRINT_ERROR_UNABLE_TO_REMOVE := 6;
  FINGERPRINT_ERROR_LOCKOUT := 7;
  FINGERPRINT_ERROR_VENDOR_BASE := 1000;
  FINGERPRINT_ACQUIRED_GOOD := 0;
  FINGERPRINT_ACQUIRED_PARTIAL := 1;
  FINGERPRINT_ACQUIRED_INSUFFICIENT := 2;
  FINGERPRINT_ACQUIRED_IMAGER_DIRTY := 3;
  FINGERPRINT_ACQUIRED_TOO_SLOW := 4;
  FINGERPRINT_ACQUIRED_TOO_FAST := 5;
  FINGERPRINT_ACQUIRED_VENDOR_BASE := 1000
|}.

(** No two elements of [l] are equal. *)
Fixpoint distinct (l : list Z) : bool :=
  match l with
  | [] => true
  | x :: l' => negb (existsb (Z.eqb x) l') && distinct l'
  end.

(** ** The translators *)

Section Translators.
Context {h : fingerprint_h}.

(** [Session::VendorErrorFilter]: the result and [*vendorCode], with the
    log line of the last path. *)
Definition VendorErrorFilter (error : Z) : (Error.t * Z) * trace :=
  let vendorCode := 0 in
  if error =? FINGERPRINT_ERROR_HW_UNAVAILABLE then
    ((Error.HW_UNAVAILABLE, vendorCode), [])
  else if error =? FINGERPRINT_ERROR_UNABLE_TO_PROCESS then
    ((Error.UNABLE_TO_PROCESS, vendorCode), [])
  else if error =? FINGERPRINT_ERROR_TIMEOUT then
    ((Error.TIMEOUT, vendorCode), [])
  else if error =? FINGERPRINT_ERROR_NO_SPACE then
    ((Error.NO_SPACE, vendorCode), [])
  else if error =? FINGERPRINT_ERROR_CANCELED then
    ((Error.CANCELED, vendorCode), [])
  else if error =? FINGERPRINT_ERROR_UNABLE_TO_REMOVE then
    ((Error.UNABLE_TO_REMOVE, vendorCode), [])
  else if error >=? FINGERPRINT_ERROR_VENDOR_BASE then
    let vendorCode := wrap_int32 (error - FINGERPRINT_ERROR_VENDOR_BASE) in
    ((Error.VENDOR, vendorCode), [])
  else
    ((Error.UNABLE_TO_PROCESS, vendorCode),
     [Log ALOGE "Unknown error from fingerprint vendor library: %d"
          [arg_int error]]).

(** [Session::VendorAcquiredFilter]. *)
Definition VendorAcquiredFilter (info : Z) : (AcquiredInfo.t * Z) * trace :=
  let vendorCode := 0 in
  if info =? FINGERPRINT_ACQUIRED_GOOD then
    ((AcquiredInfo.GOOD, vendorCode), [])
  else if info =? FINGERPRINT_ACQUIRED_PARTIAL then
    ((AcquiredInfo.PARTIAL, vendorCode), [])
  else if info =? FINGERPRINT_ACQUIRED_INSUFFICIENT then
    ((AcquiredInfo.INSUFFICIENT, vendorCode), [])
  else if info =? FINGERPRINT_ACQUIRED_IMAGER_DIRTY then
    ((AcquiredInfo.SENSOR_DIRTY, vendorCode), [])
  else if info =? FINGERPRINT_ACQUIRED_TOO_SLOW then
    ((AcquiredInfo.TOO_SLOW, vendorCode), [])
  else if info =? FINGERPRINT_ACQUIRED_TOO_FAST then
    ((AcquiredInfo.TOO_FAST, vendorCode), [])
  else if info >=? FINGERPRINT_ACQUIRED_VENDOR_BASE then
    let vendorCode := wrap_int32 (info - FINGERPRINT_ACQUIRED_VENDOR_BASE) in
    ((AcquiredInfo.VENDOR, vendorCode), [])
  else
    ((AcquiredInfo.INSUFFICIENT, vendorCode),
     [Log ALOGE "Unknown acquiredmsg from fingerprint vendor library: %d"
          [arg_int info]]).

(** The mapping table of the error translator as the specification lists
    it: legacy code, new kind. *)
Definition error_table : list (Z * Error.t) :=
  [ (FINGERPRINT_ERROR_HW_UNAVAILABLE, Error.HW_UNAVAILABLE);
    (FINGERPRINT_ERROR_UNABLE_TO_PROCESS, Error.UNABLE_TO_PROCESS);
    (FINGERPRINT_ERROR_TIMEOUT, Error.TIMEOUT);
    (FINGERPRINT_ERROR_NO_SPACE, Error.NO_SPACE);
    (FINGERPRINT_ERROR_CANCELED, Error.CANCELED);
    (FINGERPRINT_ERROR_UNABLE_TO_REMOVE, Error.UNABLE_TO_REMOVE) ].

(** The mapping table of the acquired-info translator as the
    specification lists it. *)
Definition acquired_table : list (Z * AcquiredInfo.t) :=
  [ (FINGERPRINT_ACQUIRED_GOOD, AcquiredInfo.GOOD);
    (FINGERPRINT_ACQUIRED_PARTIAL, AcquiredInfo.PARTIAL);
    (FINGERPRINT_ACQUIRED_INSUFFICIENT, AcquiredInfo.INSUFFICIENT);
    (FINGERPRINT_ACQUIRED_IMAGER_DIRTY, AcquiredInfo.SENSOR_DIRTY);
    (FINGERPRINT_ACQUIRED_TOO_SLOW, AcquiredInfo.TOO_SLOW);
    (FINGERPRINT_ACQUIRED_TOO_FAST, AcquiredInfo.TOO_FAST) ].

(** The error part of the header is one a C++ compiler accepts for the
    [switch] of [VendorErrorFilter] (no case label twice), and the vendor
    base is a non-negative [int32_t]. *)
Definition error_codes_ok : bool :=
  distinct (map fst error_table)
  && (0 <=? FINGERPRINT_ERROR_VENDOR_BASE)
  && (FINGERPRINT_ERROR_VENDOR_BASE <=? INT32_MAX).

(** The same for the acquired part and [VendorAcquiredFilter]. *)
Definition acquired_codes_ok : bool :=
  distinct (map fst acquired_table)
  && (0 <=? FINGERPRINT_ACQUIRED_VENDOR_BASE)
  && (FINGERPRINT_ACQUIRED_VENDOR_BASE <=? INT32_MAX).

(** Is [code] a legacy code of table [tbl]? *)
Definition in_table {K : Set} (tbl : list (Z * K)) (code : Z) : bool :=
  existsb (fun row => code =? fst row) tbl.

End Translators.

(** ** The session *)

(** [fingerprint_device_t]: the entry points of the legacy driver the
    session calls.  The driver is opaque; [driver] is whatever state it
    keeps, and every entry point returns its result and the next state. *)
Record fingerprint_device_t (driver : Type) : Type := {
  pre_enroll : driver -> Z * driver;
  post_enroll : driver -> Z * driver;
  authenticate_fn : Z -> Z -> driver -> Z * driver;
  enumerate : driver -> Z * driver;
  remove : Z -> Z -> driver -> Z * driver;
  get_authenticator_id : driver -> Z * driver
}.

Arguments pre_enroll {driver}.
Arguments post_enroll {driver}.
Arguments authenticate_fn {driver}.
Arguments enumerate {driver}.
Arguments remove {driver}.
Arguments get_authenticator_id {driver}.

(** The data members of [Session].  [mDevice] stands for the driver the
    pointer designates, [mSessionCallback] is [None] for a null pointer. *)
Record Session (driver LockoutTracker : Type) : Type := {
  mDevice : driver;
  mUserId : Z;
  mSessionCallback : option ISessionCallback;
  mLockoutTracker : LockoutTracker;
  mClosed : bool;
  mIsLockoutTimerStarted : bool;
  mIsLockoutTimerAborted : bool
}.

Arguments mDevice {driver LockoutTracker}.
Arguments mUserId {driver LockoutTracker}.
Arguments mSessionCallback {driver LockoutTracker}.
Arguments mLockoutTracker {driver LockoutTracker}.
Arguments mClosed {driver LockoutTracker}.
Arguments mIsLockoutTimerStarted {driver LockoutTracker}.
Arguments mIsLockoutTimerAborted {driver LockoutTracker}.

(** [CancellationSignal], made from [this]. *)
Inductive CancellationSignal : Set := make_CancellationSignal.

(** A [fingerprint_msg_t]: the message type with the member of the union
    [data] that [notify] reads for it.  Finger ids and the sample count are
    the 32-bit values of the driver; [hat] is the object representation of
    the [hw_auth_token_t], byte by byte.  [FINGERPRINT_unlisted] is a
    message whose type is none of the six case labels. *)
Inductive fingerprint_msg_t : Set :=
| FINGERPRINT_ERROR (error : Z)
| FINGERPRINT_ACQUIRED (acquired_info : Z)
| FINGERPRINT_TEMPLATE_ENROLLING (samples_remaining : Z)
| FINGERPRINT_TEMPLATE_REMOVED (fid : Z)
| FINGERPRINT_AUTHENTICATED (fid : Z) (hat : list Byte.byte)
| FINGERPRINT_TEMPLATE_ENUMERATING (fid : Z)
| FINGERPRINT_unlisted (type : Z).

(** The messages whose type is one of the six case labels of [notify]. *)
Definition listed (msg : fingerprint_msg_t) : bool :=
  match msg with
  | FINGERPRINT_unlisted _ => false
  | _ => true
  end.

Section SessionCode.
Context {h : fingerprint_h}.
Context {driver LockoutTracker : Type}.
Context (device : fingerprint_device_t driver).
Context (reset : bool -> LockoutTracker -> LockoutTracker).

Local Abbreviation Session := (Session driver LockoutTracker).

(** A member function: from the session before the call to the result, the
    session after it and what it did; [None] when it dereferences a null
    [mSessionCallback]. *)
Definition M (A : Type) : Type := Session -> option (A * Session * trace).

Definition ret {A} (a : A) : M A := fun s => Some (a, s, []).

Definition bind {A B} (m : M A) (k : A -> M B) : M B :=
  fun s =>
    match m s with
    | None => None
    | Some (a, s1, tr1) =>
        match k a s1 with
        | None => None
        | Some (b, s2, tr2) => Some (b, s2, tr1 ++ tr2)
        end
    end.

Notation "x <- m ;; k" := (bind m (fun x => k))
  (at level 61, m at next level, right associativity).
Notation "m ;; k" := (bind m (fun _ => k))
  (at level 61, right associativity).

Definition get : M Session := fun s => Some (s, s, []).

Definition emit (e : effect) : M unit := fun s => Some (tt, s, [e]).

Definition log (prio : log_priority) (fmt : string) (args : list log_arg)
  : M unit :=
  emit (Log prio fmt args).

(** [mSessionCallback->c]. *)
Definition invoke (c : callback) : M unit :=
  fun s =>
    match mSessionCallback s with
    | None => None
    | Some cb => Some (tt, s, [Client cb c])
    end.

(** The session [s] with one data member assigned. *)
Definition with_mDevice (d : driver) (s : Session) : Session :=
  {| mDevice := d;
     mUserId := mUserId s;
     mSessionCallback := mSessionCallback s;
     mLockoutTracker := mLockoutTracker s;
     mClosed := mClosed s;
     mIsLockoutTimerStarted := mIsLockoutTimerStarted s;
     mIsLockoutTimerAborted := mIsLockoutTimerAborted s |}.

Definition with_mLockoutTracker (t : LockoutTracker) (s : Session) : Session :=
  {| mDevice := mDevice s;
     mUserId := mUserId s;
     mSessionCallback := mSessionCallback s;
     mLockoutTracker := t;
     mClosed := mClosed s;
     mIsLockoutTimerStarted := mIsLockoutTimerStarted s;
     mIsLockoutTimerAborted := mIsLockoutTimerAborted s |}.

Definition with_mClosed (b : bool) (s : Session) : Session :=
  {| mDevice := mDevice s;
     mUserId := mUserId s;
     mSessionCallback := mSessionCallback s;
     mLockoutTracker := mLockoutTracker s;
     mClosed := b;
     mIsLockoutTimerStarted := mIsLockoutTimerStarted s;
     mIsLockoutTimerAborted := mIsLockoutTimerAborted s |}.

Definition with_mIsLockoutTimerStarted (b : bool) (s : Session) : Session :=
  {| mDevice := mDevice s;
     mUserId := mUserId s;
     mSessionCallback := mSessionCallback s;
     mLockoutTracker := mLockoutTracker s;
     mClosed := mClosed s;
     mIsLockoutTimerStarted := b;
     mIsLockoutTimerAborted := mIsLockoutTimerAborted s |}.

Definition with_mIsLockoutTimerAborted (b : bool) (s : Session) : Session :=
  {| mDevice := mDevice s;
     mUserId := mUserId s;
     mSessionCallback := mSessionCallback s;
     mLockoutTracker := mLockoutTracker s;
     mClosed := mClosed s;
     mIsLockoutTimerStarted := mIsLockoutTimerStarted s;
     mIsLockoutTimerAborted := b |}.

(** [mDevice->f(mDevice, ...)]. *)
Definition call_driver {A} (c : driver_call) (f : driver -> A * driver)
  : M A :=
  fun s =>
    let '(a, d) := f (mDevice s) in
    Some (a, with_mDevice d s, [Driver c]).

(** [mLockoutTracker.reset(clearAttemptCounter)]. *)
Definition call_reset (clearAttemptCounter : bool) : M unit :=
  fun s =>
    Some (tt,
          with_mLockoutTracker
            (reset clearAttemptCounter (mLockoutTracker s)) s,
          [LockoutTracker_reset clearAttemptCounter]).

Definition set_mClosed (b : bool) : M unit :=
  fun s => Some (tt, with_mClosed b s, []).

Definition set_mIsLockoutTimerStarted (b : bool) : M unit :=
  fun s => Some (tt, with_mIsLockoutTimerStarted b s, []).

Definition set_mIsLockoutTimerAborted (b : bool) : M unit :=
  fun s => Some (tt, with_mIsLockoutTimerAborted b s, []).

(** [Session::isClosed], the accessor of [mClosed] the death hook uses. *)
Definition isClosed (s : Session) : bool := mClosed s.

(** [Session::generateChallenge]. *)
Definition generateChallenge : M ScopedAStatus :=
  challenge <- call_driver call_pre_enroll (pre_enroll device) ;;
  invoke (onChallengeGenerated challenge) ;;
  ret ok.

(** [Session::revokeChallenge]. *)
Definition revokeChallenge (challenge : Z) : M ScopedAStatus :=
  call_driver call_post_enroll (post_enroll device) ;;
  invoke (onChallengeRevoked challenge) ;;
  ret ok.

(** [Session::authenticate]; the second component is [*out]. *)
Definition authenticate (operationId : Z)
  : M (ScopedAStatus * CancellationSignal) :=
  this <- get ;;
  error <- call_driver (call_authenticate operationId (mUserId this))
             (authenticate_fn device operationId (mUserId this)) ;;
  (if error =? 0 then ret tt
   else
     log ALOGE "authenticate() failed: %d" [arg_int error] ;;
     invoke (onError Error.UNABLE_TO_PROCESS error)) ;;
  ret (ok, make_CancellationSignal).

(** [Session::detectInteraction]; the second component is [*out]. *)
Definition detectInteraction : M (ScopedAStatus * CancellationSignal) :=
  log ALOGD "Detect interaction is not supported" [] ;;
  invoke (onError Error.UNABLE_TO_PROCESS 0) ;;
  ret (ok, make_CancellationSignal).

(** [Session::enumerateEnrollments]. *)
Definition enumerateEnrollments : M ScopedAStatus :=
  error <- call_driver call_enumerate (enumerate device) ;;
  (if error =? 0 then ret tt
   else
     log ALOGE "enumerate() failed: %d" [arg_int error] ;;
     invoke (onError Error.UNABLE_TO_PROCESS error)) ;;
  ret ok.

(** The [for] loop of [Session::removeEnrollments]. *)
Fixpoint removeEnrollments_loop (enrollmentIds : list Z) : M unit :=
  match enrollmentIds with
  | [] => ret tt
  | enrollment :: rest =>
      this <- get ;;
      error <- call_driver (call_remove (mUserId this) enrollment)
                 (remove device (mUserId this) enrollment) ;;
      (if error =? 0 then ret tt
       else log ALOGE "remove() failed: %d" [arg_int error]) ;;
      removeEnrollments_loop rest
  end.

(** [Session::removeEnrollments]. *)
Definition removeEnrollments (enrollmentIds : list Z) : M ScopedAStatus :=
  log ALOGI "removeEnrollments, size: %d"
      [arg_int (Z.of_nat (List.length enrollmentIds))] ;;
  removeEnrollments_loop enrollmentIds ;;
  ret ok.

(** [Session::getAuthenticatorId]. *)
Definition getAuthenticatorId : M ScopedAStatus :=
  id <- call_driver call_get_authenticator_id (get_authenticator_id device) ;;
  invoke (onAuthenticatorIdRetrieved id) ;;
  ret ok.

(** Where the behaviour of the program is undefined there is no result. *)
Definition undefined {A} : M A := fun _ => None.

(** [Session::invalidateAuthenticatorId]: the function returns a status,
    but its body reports the id and then ends without a [return]; flowing
    off its end is undefined. *)
Definition invalidateAuthenticatorId : M ScopedAStatus :=
  id <- call_driver call_get_authenticator_id (get_authenticator_id device) ;;
  invoke (onAuthenticatorIdInvalidated id) ;;
  undefined.

(** [Session::clearLockout]. *)
Definition clearLockout (clearAttemptCounter : bool) : M unit :=
  call_reset clearAttemptCounter ;;
  invoke onLockoutCleared.

(** [Session::resetLockout]; the token is not looked at. *)
Definition resetLockout : M ScopedAStatus :=
  clearLockout true ;;
  set_mIsLockoutTimerAborted true ;;
  ret ok.

(** [Session::close]. *)
Definition close : M ScopedAStatus :=
  set_mClosed true ;;
  invoke onSessionClosed ;;
  emit AIBinder_DeathRecipient_delete ;;
  ret ok.

(** [Session::authenticateWithContext]. *)
Definition authenticateWithContext (operationId : Z)
  : M (ScopedAStatus * CancellationSignal) :=
  authenticate operationId.

(** [Session::detectInteractionWithContext]. *)
Definition detectInteractionWithContext
  : M (ScopedAStatus * CancellationSignal) :=
  detectInteraction.

(** [Session::onContextChanged]. *)
Definition onContextChanged : M ScopedAStatus :=
  ret (fromExceptionCode EX_UNSUPPORTED_OPERATION).

(** [Session::onPointerDown], [onPointerUp], [onUiReady], the three
    [onPointer...WithContext] and [setIgnoreDisplayTouches] all have this
    body. *)
Definition onPointerEvent : M ScopedAStatus := ret ok.

(** [Session::startLockoutTimer]: the detached thread sleeps [timeout]
    milliseconds and then runs [lockoutTimerExpired]. *)
Definition startLockoutTimer (timeout : Z) : M unit :=
  set_mIsLockoutTimerAborted false ;;
  emit (Thread_detach timeout) ;;
  set_mIsLockoutTimerStarted true.

(** [Session::lockoutTimerExpired]. *)
Definition lockoutTimerExpired : M unit :=
  this <- get ;;
  (if negb (mIsLockoutTimerAborted this) then clearLockout false
   else ret tt) ;;
  set_mIsLockoutTimerStarted false ;;
  set_mIsLockoutTimerAborted false.

(** [onClientDeath]: [cookie] is the session the death recipient was
    linked with, [None] for a null pointer.  The result is the session
    afterwards. *)
Definition onClientDeath (cookie : option Session)
  : option (option Session * trace) :=
  let died := Log LOG_INFO "FingerprintService has died" [] in
  match cookie with
  | None => Some (None, [died])
  | Some session =>
      if negb (isClosed session) then
        match close session with
        | None => None
        | Some (_, session', tr) => Some (Some session', died :: tr)
        end
      else Some (Some session, [died])
  end.

(** [Session::notify].  [sInstance] is the global the driver callback
    reads the session from ([None] for a null pointer: the mutex of the
    session is locked before the pointer is tested).  A notification
    invokes at most one client callback; [isOk] is what [isOk()] says of
    the status that callback returns. *)
Definition notify (sInstance : option Session) (msg : fingerprint_msg_t)
  (isOk : bool) : option trace :=
  match sInstance with
  | None => None
  | Some thisPtr =>
      match mSessionCallback thisPtr with
      | None =>
          Some [Log ALOGE
                  "Receiving callbacks before the session callback is registered."
                  []]
      | Some cb =>
          let unless_ok (fmt : string) : trace :=
            if isOk then [] else [Log ALOGE fmt []] in
          match msg with
          | FINGERPRINT_ERROR error =>
              if FINGERPRINT_ERROR_LOCKOUT =? error then
                Some ([Log ALOGD "onLockoutPermanent()" [];
                       Client cb onLockoutPermanent]
                      ++ unless_ok
                           "failed to invoke fingerprint onLockoutPermanent callback"%string)
              else
                let '((result, vendorCode), tr) := VendorErrorFilter error in
                Some (tr
                      ++ [Log ALOGD "onError(%d)" [arg_error result];
                          Client cb (onError result vendorCode)]
                      ++ unless_ok
                           "failed to invoke fingerprint onError callback"%string)
          | FINGERPRINT_ACQUIRED acquired_info =>
              let '((result, vendorCode), tr) :=
                VendorAcquiredFilter acquired_info in
              Some (tr
                    ++ [Log ALOGD "onAcquired(%d)" [arg_acquired result];
                        Client cb (onAcquired result vendorCode)]
                    ++ unless_ok
                         "failed to invoke fingerprint onAcquired callback"%string)
          | FINGERPRINT_TEMPLATE_ENROLLING samples_remaining =>
              Some ([Log ALOGD "onEnrollmentProgress(rem=%d)"
                       [arg_int samples_remaining];
                     Client cb (onEnrollmentProgress samples_remaining)]
                    ++ unless_ok
                         "failed to invoke fingerprint onEnrollmentProgress callback"%string)
          | FINGERPRINT_TEMPLATE_REMOVED fid =>
              let removedFingers := [fid] in
              Some ([Log ALOGD "onEnrollmentsRemoved(fid=%d)" [arg_int fid];
                     Client cb (onEnrollmentsRemoved removedFingers)]
                    ++ unless_ok
                         "failed to invoke fingerprint onRemoved callback"%string)
          | FINGERPRINT_AUTHENTICATED fid hat =>
              if negb (fid =? 0) then
                let token := hat in
                Some ([Log ALOGD "onAuthenticationSucceeded(fid=%d)"
                         [arg_int fid];
                       Client cb (onAuthenticationSucceeded fid token)]
                      ++ unless_ok
                           "failed to invoke fingerprint onAuthenticationSucceeded callback"%string)
              else
                Some ([Log ALOGD "onAuthenticationFailed()" [];
                       Client cb onAuthenticationFailed]
                      ++ unless_ok
                           "failed to invoke fingerprint onAuthenticationFailed callback"%string)
          | FINGERPRINT_TEMPLATE_ENUMERATING fid =>
              let enumeratedFingers := [fid] in
              Some ([Log ALOGD "onEnrollmentsEnumerated(fid=%d)" [arg_int fid];
                     Client cb (onEnrollmentsEnumerated enumeratedFingers)]
                    ++ unless_ok
                         "failed to invoke fingerprint onEnrollmentsEnumerated callback"%string)
          | FINGERPRINT_unlisted _ => Some []
          end
      end
  end.

(** ** The session in its process

    Three parties act on a session: the client (requests and its death),
    the driver (notifications) and the detached threads of the lockout
    timer.  A [Process] is the session with a clock in milliseconds and the
    wake-up times of the detached threads still asleep, oldest first. *)

Record Process : Type := {
  session : Session;
  clock : Z;
  sleepers : list Z
}.

(** The requests of the client that have a defined outcome
    ([invalidateAuthenticatorId] has none, [enroll] is not modelled). *)
Inductive request : Set :=
| GenerateChallenge
| RevokeChallenge (challenge : Z)
| Authenticate (operationId : Z)
| DetectInteraction
| EnumerateEnrollments
| RemoveEnrollments (enrollmentIds : list Z)
| GetAuthenticatorId
| ResetLockout
| Close
| OnContextChanged
| OnPointerEvent.

(** One atomic action on the process.  [Expire i] is the [i]-th sleeping
    thread waking up and running its action. *)
Inductive action : Set :=
| Request (r : request)
| Notify (msg : fingerprint_msg_t) (isOk : bool)
| ClientDeath
| StartLockoutTimer (timeout : Z)
| Elapse (ms : N)
| Expire (i : nat).

Definition serve (r : request) : M unit :=
  match r with
  | GenerateChallenge => generateChallenge ;; ret tt
  | RevokeChallenge challenge => revokeChallenge challenge ;; ret tt
  | Authenticate operationId => authenticate operationId ;; ret tt
  | DetectInteraction => detectInteraction ;; ret tt
  | EnumerateEnrollments => enumerateEnrollments ;; ret tt
  | RemoveEnrollments enrollmentIds => removeEnrollments enrollmentIds ;; ret tt
  | GetAuthenticatorId => getAuthenticatorId ;; ret tt
  | ResetLockout => resetLockout ;; ret tt
  | Close => close ;; ret tt
  | OnContextChanged => onContextChanged ;; ret tt
  | OnPointerEvent => onPointerEvent ;; ret tt
  end.

(** The wake-up times of the threads a trace detaches at time [now]:
    [sleep_for] returns no earlier than [timeout] milliseconds later. *)
Fixpoint detached (now : Z) (tr : trace) : list Z :=
  match tr with
  | [] => []
  | Thread_detach timeout :: tr' => (now + timeout) :: detached now tr'
  | _ :: tr' => detached now tr'
  end.

(** Run a member function on the session of the process. *)
Definition run_member {A} (m : M A) (p : Process) : option (Process * trace) :=
  match m (session p) with
  | None => None
  | Some (_, s, tr) =>
      Some ({| session := s;
               clock := clock p;
               sleepers := sleepers p ++ detached (clock p) tr |}, tr)
  end.

(** [l] without its [i]-th element. *)
Definition drop_nth {A} (i : nat) (l : list A) : list A :=
  firstn i l ++ skipn (S i) l.

(** One action; [None] when the action cannot happen (no such sleeper, or
    it is not due yet) or dereferences a null pointer.  The driver finds
    the session of the process through [sInstance].

    An action is a whole call: a process describes the executions in which
    calls do not overlap, a thread waking only after the call before it has
    returned.  [startLockoutTimer], [resetLockout] and
    [lockoutTimerExpired] take no lock, so the source also has executions
    in which a thread wakes inside one of them; those are not described
    here. *)
Definition step (a : action) (p : Process) : option (Process * trace) :=
  match a with
  | Request r => run_member (serve r) p
  | Notify msg isOk =>
      match notify (Some (session p)) msg isOk with
      | None => None
      | Some tr => Some (p, tr)
      end
  | ClientDeath =>
      match onClientDeath (Some (session p)) with
      | Some (Some s, tr) =>
          Some ({| session := s; clock := clock p; sleepers := sleepers p |},
                tr)
      | _ => None
      end
  | StartLockoutTimer timeout => run_member (startLockoutTimer timeout) p
  | Elapse ms =>
      Some ({| session := session p;
               clock := clock p + Z.of_N ms;
               sleepers := sleepers p |}, [])
  | Expire i =>
      match nth_error (sleepers p) i with
      | None => None
      | Some wake =>
          if wake <=? clock p then
            run_member lockoutTimerExpired
              {| session := session p;
                 clock := clock p;
                 sleepers := drop_nth i (sleepers p) |}
          else None
      end
  end.

(** A sequence of actions, with the concatenated trace. *)
Fixpoint run (l : list action) (p : Process) : option (Process * trace) :=
  match l with
  | [] => Some (p, [])
  | a :: l' =>
      match step a p with
      | None => None
      | Some (p1, tr1) =>
          match run l' p1 with
          | None => None
          | Some (p2, tr2) => Some (p2, tr1 ++ tr2)
          end
      end
  end.



End SessionCode.

Arguments Process : clear implicits.
Arguments M : clear implicits.

(** ** A bench: one driver, one tracker, one session

    The concrete collaborators the closed examples below run against. *)

(** A lockout tracker for the bench (the properties below hold for any
    tracker): it holds the lockout state and the failed-attempt counter;
    [reset] clears the lockout and, when asked to, the counter. *)
Record bench_tracker : Set := {
  failedCount : nat;
  lockedOut : bool
}.

Definition bench_reset (clearAttemptCounter : bool) (t : bench_tracker)
  : bench_tracker :=
  {| failedCount := if clearAttemptCounter then 0%nat else failedCount t;
     lockedOut := false |}.

(** A driver that counts the calls it has served.  It accepts every
    request, except that removing finger 2 fails with -2. *)
Definition bench_device : fingerprint_device_t Z := {|
  pre_enroll := fun d => (4242, d + 1);
  post_enroll := fun d => (0, d + 1);
  authenticate_fn := fun _ _ d => (0, d + 1);
  enumerate := fun d => (0, d + 1);
  remove := fun _ fid d => (if fid =? 2 then -2 else 0, d + 1);
  get_authenticator_id := fun d => (7, d + 1)
|}.

(** An open session of user 10 whose client callback is object 1, locked
    out after five failed attempts. *)
Definition bench_session : Session Z bench_tracker := {|
  mDevice := 0;
  mUserId := 10;
  mSessionCallback := Some 1%nat;
  mLockoutTracker := {| failedCount := 5; lockedOut := true |};
  mClosed := false;
  mIsLockoutTimerStarted := false;
  mIsLockoutTimerAborted := false
|}.

Definition bench_process : Process Z bench_tracker := {|
  session := bench_session;
  clock := 0;
  sleepers := []
|}.

(** The bench on the platform header. *)
Definition bench_step := step (h := platform_header) bench_device bench_reset.
Definition bench_run := run (h := platform_header) bench_device bench_reset.

(** ** Vocabulary of the proofs *)



(** ** Vocabulary of the further properties *)

Definition is_onLockoutCleared (c : callback) : bool :=
  match c with onLockoutCleared => true | _ => false end.

Section FurtherVocabulary.
Context {driver LockoutTracker : Type}.
Context (device : fingerprint_device_t driver).
Context (reset : bool -> LockoutTracker -> LockoutTracker).

Local Abbreviation M := (M driver LockoutTracker).

(** A request served for its status. *)
Definition serve_status (r : request) : M ScopedAStatus :=
  match r with
  | GenerateChallenge => generateChallenge device
  | RevokeChallenge challenge => revokeChallenge device challenge
  | Authenticate operationId =>
      bind (authenticate device operationId) (fun res => ret (fst res))
  | DetectInteraction => bind detectInteraction (fun res => ret (fst res))
  | EnumerateEnrollments => enumerateEnrollments device
  | RemoveEnrollments enrollmentIds => removeEnrollments device enrollmentIds
  | GetAuthenticatorId => getAuthenticatorId device
  | ResetLockout => resetLockout reset
  | Close => close
  | OnContextChanged => onContextChanged
  | OnPointerEvent => onPointerEvent
  end.

(** What the driver answers when asked to remove the ids in turn for group
    [gid], starting in state [d]: the statuses, and its state at the
    end. *)
Fixpoint remove_all (gid : Z) (enrollmentIds : list Z) (d : driver)
  : list Z * driver :=
  match enrollmentIds with
  | [] => ([], d)
  | enrollment :: rest =>
      let '(error, d1) := remove device gid enrollment d in
      let '(errors, d2) := remove_all gid rest d1 in
      (error :: errors, d2)
  end.

End FurtherVocabulary.

(** The codes of the error log lines of a trace that carry one integer, in
    order. *)
Fixpoint logged_errors (tr : trace) : list Z :=
  match tr with
  | [] => []
  | Log ALOGE _ [arg_int z] :: tr' => z :: logged_errors tr'
  | _ :: tr' => logged_errors tr'
  end.

(** The requests that call the legacy driver. *)
Definition uses_driver (a : action) : bool :=
  match a with
  | Request GenerateChallenge
  | Request (RevokeChallenge _)
  | Request (Authenticate _)
  | Request EnumerateEnrollments
  | Request (RemoveEnrollments _)
  | Request GetAuthenticatorId => true
  | _ => false
  end.

(** The actions that can run [clearLockout]: [resetLockout] and the
    expiry of a timer. *)
Definition clears_lockout (a : action) : bool :=
  match a with
  | Request ResetLockout | Expire _ => true
  | _ => false
  end.

(** The actions that can run [close]: the request and the death hook. *)
Definition may_close (a : action) : bool :=
  match a with
  | Request Close | ClientDeath => true
  | _ => false
  end.

Definition is_Close (a : action) : bool :=
  match a with Request Close => true | _ => false end.

Definition is_Expire (a : action) : bool :=
  match a with Expire _ => true | _ => false end.

Definition is_StartLockoutTimer (a : action) : bool :=
  match a with StartLockoutTimer _ => true | _ => false end.

(** What action [a] may do on a session of user [uid] with session
    callback [cb]: log; call the driver, if it is one of the driver
    requests, and then for [uid]; call the client, on [cb] only, with
    [onSessionClosed] and [onLockoutCleared] reserved to the closing and the
    lockout-clearing actions; reset the tracker, release the death
    recipient and detach a thread if it is the action for that. *)
Definition allowed (a : action) (uid : Z) (cb : option ISessionCallback)
  (e : effect) : Prop :=
  match e with
  | Log _ _ _ => True
  | Driver c =>
      uses_driver a = true
      /\ match c with
         | call_authenticate _ gid | call_remove gid _ => gid = uid
         | _ => True
         end
  | Client c k =>
      cb = Some c
      /\ (is_onSessionClosed k = true -> may_close a = true)
      /\ (is_onLockoutCleared k = true -> clears_lockout a = true)
  | LockoutTracker_reset _ => clears_lockout a = true
  | AIBinder_DeathRecipient_delete => may_close a = true
  | Thread_detach _ => is_StartLockoutTimer a = true
  end.

(** An effect goes where it should for a session of user [uid] with
    session callback [cb]: a client call to [cb], a driver call that names
    a group to [uid]. *)
Definition addressed (uid : Z) (cb : option ISessionCallback) (e : effect)
  : Prop :=
  match e with
  | Client c _ => cb = Some c
  | Driver (call_authenticate _ gid) | Driver (call_remove gid _) => gid = uid
  | _ => True
  end.

(** How many actions of [l] satisfy [f]. *)
Definition count_actions (f : action -> bool) (l : list action) : nat :=
  List.length (List.filter f l).

(** * Properties *)

(** ** The translators *)

Lemma wrap_int32_small (z : Z) :
  INT32_MIN <= z <= INT32_MAX -> wrap_int32 z = z.
Proof.
  unfold INT32_MIN, INT32_MAX, wrap_int32. intros Hz.
  rewrite Z.mod_small; lia.
Qed.

Lemma is_int32_bounds (z : Z) :
  is_int32 z = true -> INT32_MIN <= z <= INT32_MAX.
Proof.
  unfold is_int32. rewrite andb_true_iff, !Z.leb_le. tauto.
Qed.

(** The subtraction of a vendor base does not overflow. *)
Lemma vendor_code_exact (base code : Z) :
  0 <= base <= INT32_MAX ->
  INT32_MIN <= code <= INT32_MAX ->
  base <= code ->
  wrap_int32 (code - base) = code - base.
Proof.
  intros Hbase Hcode Hge. apply wrap_int32_small.
  unfold INT32_MIN, INT32_MAX in *. lia.
Qed.

Section TranslatorFacts.
Context {h : fingerprint_h}.

(** What [error_codes_ok] says. *)
Lemma error_codes_ok_spec :
  error_codes_ok = true ->
  distinct (map fst error_table) = true
  /\ 0 <= FINGERPRINT_ERROR_VENDOR_BASE <= INT32_MAX.
Proof.
  unfold error_codes_ok, acquired_codes_ok. rewrite !andb_true_iff, !Z.leb_le. tauto.
Qed.

(** What [acquired_codes_ok] says. *)
Lemma acquired_codes_ok_spec :
  acquired_codes_ok = true ->
  distinct (map fst acquired_table) = true
  /\ 0 <= FINGERPRINT_ACQUIRED_VENDOR_BASE <= INT32_MAX.
Proof.
  unfold error_codes_ok, acquired_codes_ok. rewrite !andb_true_iff, !Z.leb_le. tauto.
Qed.

(** Break a boolean fact about the codes of a table into the comparisons
    it is made of. *)
Ltac split_codes H :=
  cbn in H;
  rewrite ?andb_true_iff, ?negb_true_iff, ?orb_false_iff in H;
  repeat match goal with
         | H' : _ /\ _ |- _ => destruct H' as [? ?]
         end.

(** Settle the comparisons of the goal that the context decides. *)
Ltac decide_codes :=
  repeat match goal with
         | |- context [?a =? ?a] => rewrite (Z.eqb_refl a)
         | H : (?a =? ?b) = false |- context [?a =? ?b] => rewrite H
         | H : (?a =? ?b) = false |- context [?b =? ?a] =>
             rewrite (Z.eqb_sym b a), H
         end.

(** C1. Error translator: a legacy error code of the mapping table
    (HW_UNAVAILABLE, UNABLE_TO_PROCESS, TIMEOUT, NO_SPACE, CANCELED,
    UNABLE_TO_REMOVE) gives the new kind of its row with vendorCode 0; a
    code outside the table that is at least the vendor base gives VENDOR
    with vendorCode = code - base; every other code outside the table gives
    UNABLE_TO_PROCESS with vendorCode 0 (and the log line). *)
Theorem VendorErrorFilter_spec (error : Z) :
  error_codes_ok = true ->
  is_int32 error = true ->
  (forall kind, In (error, kind) error_table ->
     VendorErrorFilter error = ((kind, 0), []))
  /\ (in_table error_table error = false ->
      FINGERPRINT_ERROR_VENDOR_BASE <= error ->
      VendorErrorFilter error
      = ((Error.VENDOR, error - FINGERPRINT_ERROR_VENDOR_BASE), []))
  /\ (in_table error_table error = false ->
      error < FINGERPRINT_ERROR_VENDOR_BASE ->
      VendorErrorFilter error
      = ((Error.UNABLE_TO_PROCESS, 0),
         [Log ALOGE "Unknown error from fingerprint vendor library: %d"
              [arg_int error]])).
Proof.
  intros Hok Herror.
  apply error_codes_ok_spec in Hok. destruct Hok as [Hd Hbase].
  apply is_int32_bounds in Herror.
  revert Hbase Herror. split_codes Hd. intros Hbase Herror.
  split; [| split].
  - intros kind Hin. cbn in Hin.
    unfold VendorErrorFilter.
    repeat (destruct Hin as [Hin | Hin];
            [ injection Hin as He Hk; subst kind; subst error;
              decide_codes; reflexivity
            | ]).
    contradiction.
  - intros Hout Hge. revert Hbase Herror. split_codes Hout. intros Hbase Herror.
    unfold VendorErrorFilter. decide_codes.
    rewrite Z.geb_leb, (proj2 (Z.leb_le _ _) Hge).
    rewrite (vendor_code_exact _ _ Hbase Herror Hge).
    reflexivity.
  - intros Hout Hlt. split_codes Hout.
    unfold VendorErrorFilter. decide_codes.
    rewrite Z.geb_leb, (proj2 (Z.leb_gt _ _) Hlt).
    reflexivity.
Qed.

(** C8. Acquired-info translator: a legacy code of the table (GOOD,
    PARTIAL, INSUFFICIENT, IMAGER_DIRTY to SENSOR_DIRTY, TOO_SLOW, TOO_FAST)
    gives the new kind of its row with vendorCode 0; a code outside the
    table that is at least the acquired vendor base gives VENDOR with
    vendorCode = code - base; every other code outside the table gives
    INSUFFICIENT with vendorCode 0 (and the log line). *)
Theorem VendorAcquiredFilter_spec (info : Z) :
  acquired_codes_ok = true ->
  is_int32 info = true ->
  (forall kind, In (info, kind) acquired_table ->
     VendorAcquiredFilter info = ((kind, 0), []))
  /\ (in_table acquired_table info = false ->
      FINGERPRINT_ACQUIRED_VENDOR_BASE <= info ->
      VendorAcquiredFilter info
      = ((AcquiredInfo.VENDOR, info - FINGERPRINT_ACQUIRED_VENDOR_BASE), []))
  /\ (in_table acquired_table info = false ->
      info < FINGERPRINT_ACQUIRED_VENDOR_BASE ->
      VendorAcquiredFilter info
      = ((AcquiredInfo.INSUFFICIENT, 0),
         [Log ALOGE "Unknown acquiredmsg from fingerprint vendor library: %d"
              [arg_int info]])).
Proof.
  intros Hok Hinfo.
  apply acquired_codes_ok_spec in Hok. destruct Hok as [Hd Hbase].
  apply is_int32_bounds in Hinfo.
  revert Hbase Hinfo. split_codes Hd. intros Hbase Hinfo.
  split; [| split].
  - intros kind Hin. cbn in Hin.
    unfold VendorAcquiredFilter.
    repeat (destruct Hin as [Hin | Hin];
            [ injection Hin as He Hk; subst kind; subst info;
              decide_codes; reflexivity
            | ]).
    contradiction.
  - intros Hout Hge. revert Hbase Hinfo. split_codes Hout. intros Hbase Hinfo.
    unfold VendorAcquiredFilter. decide_codes.
    rewrite Z.geb_leb, (proj2 (Z.leb_le _ _) Hge).
    rewrite (vendor_code_exact _ _ Hbase Hinfo Hge).
    reflexivity.
  - intros Hout Hlt. split_codes Hout.
    unfold VendorAcquiredFilter. decide_codes.
    rewrite Z.geb_leb, (proj2 (Z.leb_gt _ _) Hlt).
    reflexivity.
Qed.

End TranslatorFacts.

(** C1 at the platform header: 3 is TIMEOUT, 1003 is the vendor code 3,
    and 7 (the lockout sentinel, which has no row) is the default. *)
Lemma VendorErrorFilter_spec_witness :
  VendorErrorFilter (h := platform_header) 3 = ((Error.TIMEOUT, 0), [])
  /\ VendorErrorFilter (h := platform_header) 1003 = ((Error.VENDOR, 3), [])
  /\ VendorErrorFilter (h := platform_header) 7
     = ((Error.UNABLE_TO_PROCESS, 0),
        [Log ALOGE "Unknown error from fingerprint vendor library: %d"
             [arg_int 7]]).
Proof.
  split; [| split].
  - apply (proj1 (@VendorErrorFilter_spec platform_header 3 eq_refl eq_refl)).
    cbn. right. right. left. reflexivity.
  - apply (proj1 (proj2
             (@VendorErrorFilter_spec platform_header 1003 eq_refl eq_refl))).
    + reflexivity.
    + cbn. lia.
  - apply (proj2 (proj2
             (@VendorErrorFilter_spec platform_header 7 eq_refl eq_refl))).
    + reflexivity.
    + cbn. lia.
Defined.

(** C8 at the platform header: 3 is SENSOR_DIRTY, 1005 is the vendor code
    5, and 6 (no row, below the base) is the default. *)
Lemma VendorAcquiredFilter_spec_witness :
  VendorAcquiredFilter (h := platform_header) 3
  = ((AcquiredInfo.SENSOR_DIRTY, 0), [])
  /\ VendorAcquiredFilter (h := platform_header) 1005
     = ((AcquiredInfo.VENDOR, 5), [])
  /\ VendorAcquiredFilter (h := platform_header) 6
     = ((AcquiredInfo.INSUFFICIENT, 0),
        [Log ALOGE "Unknown acquiredmsg from fingerprint vendor library: %d"
             [arg_int 6]]).
Proof.
  split; [| split].
  - apply (proj1
             (@VendorAcquiredFilter_spec platform_header 3 eq_refl eq_refl)).
    cbn. right. right. right. left. reflexivity.
  - apply (proj1 (proj2
             (@VendorAcquiredFilter_spec platform_header 1005
                eq_refl eq_refl))).
    + reflexivity.
    + cbn. lia.
  - apply (proj2 (proj2
             (@VendorAcquiredFilter_spec platform_header 6 eq_refl eq_refl))).
    + reflexivity.
    + cbn. lia.
Defined.

(** ** The event dispatcher *)

Section DispatcherFacts.
Context {h : fingerprint_h}.
Context {driver LockoutTracker : Type}.

Local Abbreviation Session := (Session driver LockoutTracker).


(** The translators make no client call of their own. *)
Lemma VendorErrorFilter_silent (error : Z) :
  client_calls (snd (VendorErrorFilter error)) = [].
Proof.
  unfold VendorErrorFilter.
  repeat match goal with
         | |- context [if ?c then _ else _] => destruct c
         end; reflexivity.
Qed.

Lemma VendorAcquiredFilter_silent (info : Z) :
  client_calls (snd (VendorAcquiredFilter info)) = [].
Proof.
  unfold VendorAcquiredFilter.
  repeat match goal with
         | |- context [if ?c then _ else _] => destruct c
         end; reflexivity.
Qed.

Lemma client_calls_app (tr1 tr2 : trace) :
  client_calls (tr1 ++ tr2) = client_calls tr1 ++ client_calls tr2.
Proof.
  induction tr1 as [| e tr1 IH]; [reflexivity |].
  destruct e; cbn; rewrite IH; reflexivity.
Qed.

(** C5. An Error event that carries the lockout sentinel
    [FINGERPRINT_ERROR_LOCKOUT] makes the dispatcher invoke
    [onLockoutPermanent] on the session callback, and no [onError]: it is the
    only client callback of the notification. *)
Theorem notify_lockout_sentinel (s : Session) (cb : ISessionCallback)
  (isOk : bool) :
  mSessionCallback s = Some cb ->
  exists tr,
    notify (Some s) (FINGERPRINT_ERROR FINGERPRINT_ERROR_LOCKOUT) isOk
    = Some tr
    /\ In (Client cb onLockoutPermanent) tr
    /\ client_calls tr = [onLockoutPermanent]
    /\ count_calls is_onError tr = 0%nat.
Proof.
  intros Hcb. unfold notify. rewrite Hcb, Z.eqb_refl.
  eexists. split; [reflexivity |].
  destruct isOk; cbn; auto.
Qed.

(** C6. An Authenticated event with finger id 0 makes the dispatcher
    invoke [onAuthenticationFailed], and neither [onError] nor
    [onAuthenticationSucceeded]; with any other finger id it invokes
    [onAuthenticationSucceeded] with that id and the bytes of the token. *)
Theorem notify_authenticated (s : Session) (cb : ISessionCallback)
  (fid : Z) (hat : list Byte.byte) (isOk : bool) :
  mSessionCallback s = Some cb ->
  exists tr,
    notify (Some s) (FINGERPRINT_AUTHENTICATED fid hat) isOk = Some tr
    /\ (fid = 0 ->
        In (Client cb onAuthenticationFailed) tr
        /\ client_calls tr = [onAuthenticationFailed]
        /\ count_calls is_onError tr = 0%nat
        /\ count_calls is_onAuthenticationSucceeded tr = 0%nat)
    /\ (fid <> 0 ->
        In (Client cb (onAuthenticationSucceeded fid hat)) tr
        /\ client_calls tr = [onAuthenticationSucceeded fid hat]).
Proof.
  intros Hcb. unfold notify. rewrite Hcb.
  destruct (Z.eqb_spec fid 0) as [Hz | Hnz]; cbn [negb].
  - eexists. split; [reflexivity |]. split; [| congruence].
    intros _. destruct isOk; cbn; auto.
  - eexists. split; [reflexivity |]. split; [congruence |].
    intros _. destruct isOk; cbn; auto.
Qed.

(** C2, as the code has it. The dispatcher never reads the closed flag: a
    notification has the same outcome on a session whatever its [mClosed],
    so also after [close] has completed.  It returns, and it makes exactly
    one client call when a session callback is registered and the message
    type is one of the six listed ones, and none when the session callback
    is null or the type is unlisted. *)
Theorem notify_ignores_closed (s : Session) (msg : fingerprint_msg_t)
  (isOk : bool) :
  (forall closed : bool,
     notify (Some (with_mClosed closed s)) msg isOk
     = notify (Some s) msg isOk)
  /\ exists tr,
       notify (Some s) msg isOk = Some tr
       /\ List.length (client_calls tr)
          = match mSessionCallback s with
            | Some _ => if listed msg then 1%nat else 0%nat
            | None => 0%nat
            end.
Proof.
  split; [reflexivity |].
  unfold notify.
  destruct (mSessionCallback s) as [cb |]; [| eexists; split; reflexivity].
  destruct msg as [error | info | rem | fid | fid hat | fid | ty].
  - destruct (FINGERPRINT_ERROR_LOCKOUT =? error).
    + eexists; split; [reflexivity |]. destruct isOk; reflexivity.
    + pose proof (VendorErrorFilter_silent error) as Hs.
      destruct (VendorErrorFilter error) as [[result vendorCode] tr].
      eexists; split; [reflexivity |].
      cbn in Hs. rewrite client_calls_app, Hs.
      destruct isOk; reflexivity.
  - pose proof (VendorAcquiredFilter_silent info) as Hs.
    destruct (VendorAcquiredFilter info) as [[result vendorCode] tr].
    eexists; split; [reflexivity |].
    cbn in Hs. rewrite client_calls_app, Hs.
    destruct isOk; reflexivity.
  - eexists; split; [reflexivity |]. destruct isOk; reflexivity.
  - eexists; split; [reflexivity |]. destruct isOk; reflexivity.
  - destruct (negb (fid =? 0));
      (eexists; split; [reflexivity |]; destruct isOk; reflexivity).
  - eexists; split; [reflexivity |]. destruct isOk; reflexivity.
  - eexists; split; reflexivity.
Qed.

End DispatcherFacts.

(** C5 on the bench: the sentinel of the platform header is 7. *)
Lemma notify_lockout_sentinel_witness :
  exists tr,
    notify (h := platform_header) (Some bench_session) (FINGERPRINT_ERROR 7)
      true = Some tr
    /\ In (Client 1%nat onLockoutPermanent) tr
    /\ client_calls tr = [onLockoutPermanent]
    /\ count_calls is_onError tr = 0%nat.
Proof.
  exact (@notify_lockout_sentinel platform_header _ _ bench_session 1%nat
           true eq_refl).
Defined.

(** C6 on the bench: finger 0 fails, finger 3 succeeds. *)
Lemma notify_authenticated_witness :
  (exists tr,
     notify (h := platform_header) (Some bench_session)
       (FINGERPRINT_AUTHENTICATED 0 []) true = Some tr
     /\ client_calls tr = [onAuthenticationFailed])
  /\ (exists tr,
        notify (h := platform_header) (Some bench_session)
          (FINGERPRINT_AUTHENTICATED 3 [Byte.x2a]) true = Some tr
        /\ client_calls tr = [onAuthenticationSucceeded 3 [Byte.x2a]]).
Proof.
  split.
  - destruct (@notify_authenticated platform_header _ _ bench_session 1%nat
                0 [] true eq_refl) as (tr & Hrun & Hzero & _).
    exists tr. split; [exact Hrun |].
    apply Hzero. reflexivity.
  - destruct (@notify_authenticated platform_header _ _ bench_session 1%nat
                3 [Byte.x2a] true eq_refl) as (tr & Hrun & _ & Hnz).
    exists tr. split; [exact Hrun |].
    apply Hnz. lia.
Defined.

(** C2 fails as stated: on the bench, after [close] has set the closed
    flag, an Acquired notification still reaches the client. *)
Lemma notify_after_close_counterexample :
  exists p tr1 tr2,
    bench_step (Request Close) bench_process = Some (p, tr1)
    /\ mClosed (session p) = true
    /\ bench_step (Notify (FINGERPRINT_ACQUIRED 0) true) p = Some (p, tr2)
    /\ tr2 = [Log ALOGD "onAcquired(%d)" [arg_acquired AcquiredInfo.GOOD];
              Client 1%nat (onAcquired AcquiredInfo.GOOD 0)]
    /\ client_calls tr2 <> [].
Proof.
  do 3 eexists. repeat split; try reflexivity. discriminate.
Qed.

(** ** The session operations *)

Section OperationFacts.
Context {driver LockoutTracker : Type}.
Context (device : fingerprint_device_t driver).
Context (reset : bool -> LockoutTracker -> LockoutTracker).

Local Abbreviation Session := (Session driver LockoutTracker).

(** C9. [detectInteraction] calls no entry of the legacy driver, reports
    [onError(UNABLE_TO_PROCESS, 0)] to the client, and returns a
    cancellation signal with the status ok; the session is left as it
    was. *)
Theorem detectInteraction_unsupported (s : Session) (cb : ISessionCallback) :
  mSessionCallback s = Some cb ->
  exists tr,
    detectInteraction s = Some ((ok, make_CancellationSignal), s, tr)
    /\ tr = [Log ALOGD "Detect interaction is not supported" [];
             Client cb (onError Error.UNABLE_TO_PROCESS 0)]
    /\ driver_calls tr = []
    /\ client_calls tr = [onError Error.UNABLE_TO_PROCESS 0].
Proof.
  intros Hcb. eexists.
  unfold detectInteraction, bind, log, emit, invoke, ret.
  rewrite Hcb. cbn. repeat split.
Qed.

(** The loop of [removeEnrollments] returns.  It calls [remove] once per
    id, in order, for the user of the session, each call on the driver as
    the call before left it; it logs the answers that are not 0, and does
    nothing else. *)
Lemma removeEnrollments_loop_spec (enrollmentIds : list Z) :
  forall s : Session,
  exists tr,
    removeEnrollments_loop device enrollmentIds s
    = Some (tt,
            with_mDevice
              (snd (remove_all device (mUserId s) enrollmentIds (mDevice s)))
              s,
            tr)
    /\ driver_calls tr = map (call_remove (mUserId s)) enrollmentIds
    /\ logged_errors tr
       = filter (fun error => negb (error =? 0))
           (fst (remove_all device (mUserId s) enrollmentIds (mDevice s)))
    /\ Forall (fun e => match e with
                        | Log _ _ _ | Driver _ => True
                        | _ => False
                        end) tr.
Proof.
  induction enrollmentIds as [| enrollment rest IH]; intros s.
  - exists []. destruct s. cbn. repeat split. constructor.
  - cbn [removeEnrollments_loop remove_all].
    unfold bind at 1. unfold get.
    unfold bind at 1. unfold call_driver.
    destruct (remove device (mUserId s) enrollment (mDevice s))
      as [error d] eqn:Hrm.
    unfold bind at 1.
    destruct (IH (with_mDevice d s)) as (tr & Hloop & Hcalls & Hlog & Hall).
    cbn [mUserId mDevice with_mDevice] in Hloop, Hcalls, Hlog.
    destruct (remove_all device (mUserId s) rest d) as [errors d2] eqn:Hrest.
    cbn [fst snd] in *.
    destruct (error =? 0) eqn:Herr.
    + unfold ret at 1. rewrite Hloop.
      eexists. split; [reflexivity |].
      cbn. rewrite Herr, Hcalls.
      split; [reflexivity |]. split; [exact Hlog |].
      constructor; [exact I | exact Hall].
    + unfold log, emit. rewrite Hloop.
      eexists. split; [reflexivity |].
      cbn. rewrite Herr, Hcalls, Hlog.
      split; [reflexivity |]. split; [reflexivity |].
      constructor; [exact I |]. constructor; [exact I | exact Hall].
Qed.

(** C10. [removeEnrollments] issues exactly one legacy [remove] per id of
    the list, in order and whatever the earlier calls returned: the driver
    calls of its trace are these, and the session ends with the driver in
    the state the successive calls left it in, every other data member
    unchanged.  It returns the status ok whatever the driver answered.  A
    refusal is only logged: the codes of the error lines are exactly the
    answers of the driver that are not 0, in the order of the ids, there is
    no client callback, and besides the driver calls every effect is a log
    line. *)
Theorem removeEnrollments_spec (enrollmentIds : list Z) (s : Session) :
  exists tr,
    removeEnrollments device enrollmentIds s
    = Some (ok,
            with_mDevice
              (snd (remove_all device (mUserId s) enrollmentIds (mDevice s)))
              s,
            tr)
    /\ driver_calls tr = map (call_remove (mUserId s)) enrollmentIds
    /\ logged_errors tr
       = filter (fun error => negb (error =? 0))
           (fst (remove_all device (mUserId s) enrollmentIds (mDevice s)))
    /\ client_calls tr = []
    /\ Forall (fun e => match e with
                        | Log _ _ _ | Driver _ => True
                        | _ => False
                        end) tr.
Proof.
  destruct (removeEnrollments_loop_spec enrollmentIds s)
    as (tr & Hloop & Hcalls & Hlog & Hall).
  unfold removeEnrollments, bind, log, emit, ret.
  rewrite Hloop.
  eexists. split; [reflexivity |].
  rewrite app_nil_r. cbn.
  split; [exact Hcalls |]. split; [exact Hlog |]. split.
  - clear Hloop Hcalls Hlog.
    induction Hall as [| e tr' He Hall IH]; [reflexivity |].
    destruct e; cbn; try contradiction; exact IH.
  - constructor; [exact I | exact Hall].
Qed.

End OperationFacts.

(** The scenario of the specification on the bench: of the ids 1, 2, 3 the
    driver refuses 2; all three are asked for, the refusal is logged, the
    client hears nothing and the status is ok. *)
Example removeEnrollments_scenario :
  removeEnrollments bench_device [1; 2; 3] bench_session
  = Some (ok,
          with_mDevice 3 bench_session,
          [Log ALOGI "removeEnrollments, size: %d" [arg_int 3];
           Driver (call_remove 10 1);
           Driver (call_remove 10 2);
           Log ALOGE "remove() failed: %d" [arg_int (-2)];
           Driver (call_remove 10 3)]).
Proof. reflexivity. Qed.

(** C9 on the bench. *)
Lemma detectInteraction_unsupported_witness :
  exists tr,
    detectInteraction bench_session
    = Some ((ok, make_CancellationSignal), bench_session, tr)
    /\ tr = [Log ALOGD "Detect interaction is not supported" [];
             Client 1%nat (onError Error.UNABLE_TO_PROCESS 0)]
    /\ driver_calls tr = []
    /\ client_calls tr = [onError Error.UNABLE_TO_PROCESS 0].
Proof.
  exact (detectInteraction_unsupported bench_session 1%nat eq_refl).
Defined.

(** ** Closing the session *)

(** C3. [close] is not idempotent.  On the bench, two invocations of
    [close] in succession notify [onSessionClosed] twice, and each of them
    hands the death recipient of the session to
    [AIBinder_DeathRecipient_delete], the second one after the first has
    deleted it.  The death hook has the guard that [close] lacks: [close]
    followed by [onClientDeath] notifies once and releases once. *)
Lemma close_twice_renotifies :
  (exists p tr,
     bench_run [Request Close; Request Close] bench_process = Some (p, tr)
     /\ tr = [Client 1%nat onSessionClosed; AIBinder_DeathRecipient_delete;
              Client 1%nat onSessionClosed; AIBinder_DeathRecipient_delete]
     /\ count_calls is_onSessionClosed tr = 2%nat)
  /\ (exists p tr,
        bench_run [Request Close; ClientDeath] bench_process = Some (p, tr)
        /\ tr = [Client 1%nat onSessionClosed; AIBinder_DeathRecipient_delete;
                 Log LOG_INFO "FingerprintService has died" []]
        /\ count_calls is_onSessionClosed tr = 1%nat).
Proof.
  split; do 2 eexists; (split; [vm_compute; reflexivity |]);
    split; reflexivity.
Qed.

(** ** The lockout timer *)




Section TimerFacts.
Context {h : fingerprint_h}.
Context {driver LockoutTracker : Type}.
Context (device : fingerprint_device_t driver).
Context (reset : bool -> LockoutTracker -> LockoutTracker).

Local Abbreviation Session := (Session driver LockoutTracker).
Local Abbreviation Process := (Process driver LockoutTracker).
Local Abbreviation M := (M driver LockoutTracker).
Local Abbreviation step := (step device reset).
Local Abbreviation run := (run device reset).
Local Abbreviation serve := (serve device reset).

(** *** Calm member functions *)













(** *** Single actions *)



Lemma step_Expire_early (i : nat) (wake : Z) (p : Process) :
  nth_error (sleepers p) i = Some wake ->
  clock p < wake ->
  step (Expire i) p = None.
Proof.
  intros Hnth Hearly. cbn. rewrite Hnth.
  rewrite (proj2 (Z.leb_gt _ _) Hearly). reflexivity.
Qed.







(** *** The timer against [resetLockout] and against a restart *)




End TimerFacts.





(** * Further properties *)

(** ** The translators, backwards *)

Section TranslatorInverse.
Context {h : fingerprint_h}.

(** Walk down the [switch] of a translator, one case label at a time. *)
Ltac walk_switch :=
  repeat match goal with
         | |- context [if ?a =? ?b then _ else _] => destruct (a =? b)
         | |- context [?a >=? ?b] =>
             rewrite (Z.geb_leb a b); destruct (Z.leb_spec b a)
         end.

(** X1. What the error translator returns tells the code apart: a VENDOR
    result comes without a log line and with a vendor code that is
    non-negative and gives the legacy code back when the vendor base is
    added; every other kind comes with vendorCode 0; and the log line
    comes only with UNABLE_TO_PROCESS. *)
Theorem VendorErrorFilter_inverse (error : Z) (kind : Error.t)
  (vendorCode : Z) (tr : trace) :
  0 <= FINGERPRINT_ERROR_VENDOR_BASE <= INT32_MAX ->
  is_int32 error = true ->
  VendorErrorFilter error = ((kind, vendorCode), tr) ->
  (kind = Error.VENDOR ->
     0 <= vendorCode
     /\ error = FINGERPRINT_ERROR_VENDOR_BASE + vendorCode
     /\ tr = [])
  /\ (kind <> Error.VENDOR -> vendorCode = 0)
  /\ (tr <> [] -> kind = Error.UNABLE_TO_PROCESS).
Proof.
  intros Hbase Herr. apply is_int32_bounds in Herr.
  unfold VendorErrorFilter. walk_switch;
    intros Heq; injection Heq as <- <- <-;
    (split; [| split]); try congruence; try discriminate.
  intros _. rewrite (vendor_code_exact _ _ Hbase Herr H).
  repeat split; lia.
Qed.

(** X2. The same for the acquired-info translator: a VENDOR result comes
    without a log line and with a non-negative vendor code that gives the
    legacy code back; every other kind comes with vendorCode 0; the log
    line comes only with INSUFFICIENT. *)
Theorem VendorAcquiredFilter_inverse (info : Z) (kind : AcquiredInfo.t)
  (vendorCode : Z) (tr : trace) :
  0 <= FINGERPRINT_ACQUIRED_VENDOR_BASE <= INT32_MAX ->
  is_int32 info = true ->
  VendorAcquiredFilter info = ((kind, vendorCode), tr) ->
  (kind = AcquiredInfo.VENDOR ->
     0 <= vendorCode
     /\ info = FINGERPRINT_ACQUIRED_VENDOR_BASE + vendorCode
     /\ tr = [])
  /\ (kind <> AcquiredInfo.VENDOR -> vendorCode = 0)
  /\ (tr <> [] -> kind = AcquiredInfo.INSUFFICIENT).
Proof.
  intros Hbase Hinfo. apply is_int32_bounds in Hinfo.
  unfold VendorAcquiredFilter. walk_switch;
    intros Heq; injection Heq as <- <- <-;
    (split; [| split]); try congruence; try discriminate.
  intros _. rewrite (vendor_code_exact _ _ Hbase Hinfo H).
  repeat split; lia.
Qed.

End TranslatorInverse.

(** X1 on the platform header: 1003 is the vendor code 3. *)
Lemma VendorErrorFilter_inverse_witness :
  0 <= 3 /\ 1003 = 1000 + 3 /\ @nil effect = [].
Proof.
  apply (proj1 (@VendorErrorFilter_inverse platform_header 1003 Error.VENDOR
                  3 [] ltac:(cbn; unfold INT32_MAX; lia) eq_refl eq_refl)).
  reflexivity.
Defined.

(** X2 on the platform header: 1005 is the vendor code 5. *)
Lemma VendorAcquiredFilter_inverse_witness :
  0 <= 5 /\ 1005 = 1000 + 5 /\ @nil effect = [].
Proof.
  apply (proj1 (@VendorAcquiredFilter_inverse platform_header 1005
                  AcquiredInfo.VENDOR 5 []
                  ltac:(cbn; unfold INT32_MAX; lia) eq_refl eq_refl)).
  reflexivity.
Defined.

(** ** The requests, one by one *)

(** Run a member function by hand: take apart, in the equation [H] that
    gives its result, every [match] on something the session or the driver
    decides. *)
Ltac break_matches H :=
  repeat (cbn beta iota zeta in H;
          match type of H with
          | context [match ?x with _ => _ end] =>
              lazymatch x with
              | context [match _ with _ => _ end] => fail
              | _ => destruct x eqn:?
              end
          end;
          try discriminate H).

Section RequestFacts.
Context {driver LockoutTracker : Type}.
Context (device : fingerprint_device_t driver).
Context (reset : bool -> LockoutTracker -> LockoutTracker).

Local Abbreviation Session := (Session driver LockoutTracker).

(** X3. [authenticate] and [enumerateEnrollments] ask the driver once.
    When the driver answers 0 the client hears nothing; any other answer
    is reported once as [onError(UNABLE_TO_PROCESS, answer)], the raw
    driver status being the vendor code.  Either way the status returned is
    ok (with a cancellation signal for [authenticate]) and only the driver
    has changed. *)
Theorem driver_status_reported (operationId : Z) (s : Session)
  (cb : ISessionCallback) :
  mSessionCallback s = Some cb ->
  (exists tr,
     authenticate device operationId s
     = Some ((ok, make_CancellationSignal),
             with_mDevice
               (snd (authenticate_fn device operationId (mUserId s)
                       (mDevice s))) s,
             tr)
     /\ driver_calls tr = [call_authenticate operationId (mUserId s)]
     /\ client_calls tr
        = let error :=
            fst (authenticate_fn device operationId (mUserId s) (mDevice s))
          in
          if error =? 0 then []
          else [onError Error.UNABLE_TO_PROCESS error])
  /\ (exists tr,
        enumerateEnrollments device s
        = Some (ok, with_mDevice (snd (enumerate device (mDevice s))) s, tr)
        /\ driver_calls tr = [call_enumerate]
        /\ client_calls tr
           = let error := fst (enumerate device (mDevice s)) in
             if error =? 0 then []
             else [onError Error.UNABLE_TO_PROCESS error]).
Proof.
  intros Hcb. split.
  - unfold authenticate, bind, get, call_driver, log, emit, invoke, ret.
    destruct (authenticate_fn device operationId (mUserId s) (mDevice s))
      as [error d].
    cbn. destruct (error =? 0); cbn; [| rewrite Hcb];
      eexists; (split; [reflexivity |]); split; reflexivity.
  - unfold enumerateEnrollments, bind, get, call_driver, log, emit, invoke,
      ret.
    destruct (enumerate device (mDevice s)) as [error d].
    cbn. destruct (error =? 0); cbn; [| rewrite Hcb];
      eexists; (split; [reflexivity |]); split; reflexivity.
Qed.

(** The loop of [removeEnrollments] against the answers of the driver. *)
Lemma removeEnrollments_loop_answers (enrollmentIds : list Z) :
  forall s : Session,
  exists tr,
    removeEnrollments_loop device enrollmentIds s
    = Some (tt,
            with_mDevice
              (snd (remove_all device (mUserId s) enrollmentIds (mDevice s)))
              s,
            tr)
    /\ logged_errors tr
       = filter (fun error => negb (error =? 0))
           (fst (remove_all device (mUserId s) enrollmentIds (mDevice s))).
Proof.
  induction enrollmentIds as [| enrollment rest IH]; intros s.
  - exists []. destruct s; split; reflexivity.
  - cbn [removeEnrollments_loop remove_all].
    unfold bind at 1. unfold get.
    unfold bind at 1. unfold call_driver.
    destruct (remove device (mUserId s) enrollment (mDevice s))
      as [error d] eqn:Hrm.
    unfold bind at 1.
    destruct (IH (with_mDevice d s)) as (tr & Hloop & Hlog).
    cbn [mUserId mDevice with_mDevice] in Hloop, Hlog.
    destruct (remove_all device (mUserId s) rest d) as [errors d2] eqn:Hall.
    cbn [fst snd] in *.
    destruct (error =? 0) eqn:Herr.
    + unfold ret at 1. rewrite Hloop.
      eexists. split; [reflexivity |].
      cbn. rewrite Herr. exact Hlog.
    + unfold log, emit. rewrite Hloop.
      eexists. split; [reflexivity |].
      cbn. rewrite Herr. cbn. rewrite Hlog. reflexivity.
Qed.

(** X4. [removeEnrollments] logs every refusal of the driver, and nothing
    else, as an error: the codes of its error lines are exactly the
    non-zero statuses the driver returned, in the order of the ids; the
    session ends with the driver in the state the calls left it in, all
    other data members unchanged. *)
Theorem removeEnrollments_logs_refusals (enrollmentIds : list Z)
  (s : Session) :
  exists tr,
    removeEnrollments device enrollmentIds s
    = Some (ok,
            with_mDevice
              (snd (remove_all device (mUserId s) enrollmentIds (mDevice s)))
              s,
            tr)
    /\ logged_errors tr
       = filter (fun error => negb (error =? 0))
           (fst (remove_all device (mUserId s) enrollmentIds (mDevice s))).
Proof.
  destruct (removeEnrollments_loop_answers enrollmentIds s)
    as (tr & Hloop & Hlog).
  unfold removeEnrollments, bind, log, emit, ret. rewrite Hloop.
  eexists. split; [reflexivity |].
  rewrite app_nil_r. cbn. exact Hlog.
Qed.

(** X5. No request reports a failure through its status.  With a session
    callback in place, every request (a [close] being asked of a session
    that is not closed yet) returns, and its status is ok whatever the
    driver answered, except for [onContextChanged], which always returns
    EX_UNSUPPORTED_OPERATION. *)
Theorem status_never_fails (r : request) (s : Session)
  (cb : ISessionCallback) :
  mSessionCallback s = Some cb ->
  (r = Close -> mClosed s = false) ->
  exists s' tr,
    serve_status device reset r s
    = Some (match r with
            | OnContextChanged => fromExceptionCode EX_UNSUPPORTED_OPERATION
            | _ => ok
            end, s', tr).
Proof.
  intros Hcb _.
  destruct r as [| challenge | operationId | | | enrollmentIds | | | | |];
    cbn [serve_status].
  6: { destruct (removeEnrollments_loop_spec device enrollmentIds s)
         as (tr & Hloop & _).
       unfold removeEnrollments, bind, log, emit, ret. rewrite Hloop.
       do 2 eexists. reflexivity. }
  all: unfold generateChallenge, revokeChallenge, authenticate,
         detectInteraction, enumerateEnrollments, getAuthenticatorId,
         resetLockout, clearLockout, close, onContextChanged,
         onPointerEvent, bind, get, call_driver, call_reset, set_mClosed,
         set_mIsLockoutTimerAborted, log, emit, invoke, ret.
  all: repeat match goal with
              | |- context [let '(_, _) := ?x in _] => destruct x
              | |- context [if ?c then _ else _] => destruct c
              end;
       cbn; rewrite ?Hcb; cbn; do 2 eexists; reflexivity.
Qed.

End RequestFacts.

(** X3 on the bench, whose driver accepts: the client hears nothing. *)
Lemma driver_status_reported_witness :
  exists tr,
    authenticate bench_device 7 bench_session
    = Some ((ok, make_CancellationSignal), with_mDevice 1 bench_session, tr)
    /\ driver_calls tr = [call_authenticate 7 10]
    /\ client_calls tr = [].
Proof.
  exact (proj1 (driver_status_reported bench_device 7 bench_session 1%nat
                  eq_refl)).
Defined.

(** X5 on the bench: a removal that the driver partly refuses is ok, and
    so is the close of the open session. *)
Lemma status_never_fails_witness :
  (exists s' tr,
     serve_status bench_device bench_reset (RemoveEnrollments [1; 2; 3])
       bench_session = Some (ok, s', tr))
  /\ exists s' tr,
       serve_status bench_device bench_reset Close bench_session
       = Some (ok, s', tr).
Proof.
  split.
  - exact (status_never_fails bench_device bench_reset
             (RemoveEnrollments [1; 2; 3]) bench_session 1%nat eq_refl
             (fun _ => eq_refl)).
  - exact (status_never_fails bench_device bench_reset Close bench_session
             1%nat eq_refl (fun _ => eq_refl)).
Defined.

(** ** The dispatcher and the status of the client *)

Section DispatcherMore.
Context {h : fingerprint_h}.
Context {driver LockoutTracker : Type}.

Local Abbreviation Session := (Session driver LockoutTracker).

(** X6. A client callback that fails is logged and nothing more: the
    dispatcher does with a failing callback what it does with one that
    succeeds, followed by one error log line (none for a message of an
    unlisted type, which invokes no callback); it neither retries nor
    calls anything else. *)
Theorem notify_failure_only_logged (s : Session) (cb : ISessionCallback)
  (msg : fingerprint_msg_t) :
  mSessionCallback s = Some cb ->
  exists tr extra,
    notify (Some s) msg true = Some tr
    /\ notify (Some s) msg false = Some (tr ++ extra)
    /\ (forall e, In e extra -> exists fmt, e = Log ALOGE fmt [])
    /\ List.length extra = if listed msg then 1%nat else 0%nat.
Proof.
  intros Hcb. unfold notify. rewrite Hcb.
  assert (Hone : forall fmt e,
             In e [Log ALOGE fmt []] -> exists fmt', e = Log ALOGE fmt' []).
  { intros fmt e [<- | []]. eexists. reflexivity. }
  destruct msg as [error | info | rem | fid | fid hat | fid | ty].
  - destruct (FINGERPRINT_ERROR_LOCKOUT =? error).
    + eexists _, [_]. split; [reflexivity |]. split; [reflexivity |].
      split; [apply Hone | reflexivity].
    + destruct (VendorErrorFilter error) as [[result vendorCode] tr].
      exists (tr ++ [Log ALOGD "onError(%d)" [arg_error result];
                     Client cb (onError result vendorCode)]).
      eexists [_]. split; [reflexivity |].
      split; [rewrite <- app_assoc; reflexivity |].
      split; [apply Hone | reflexivity].
  - destruct (VendorAcquiredFilter info) as [[result vendorCode] tr].
    exists (tr ++ [Log ALOGD "onAcquired(%d)" [arg_acquired result];
                   Client cb (onAcquired result vendorCode)]).
    eexists [_]. split; [reflexivity |].
    split; [rewrite <- app_assoc; reflexivity |].
    split; [apply Hone | reflexivity].
  - eexists _, [_]. split; [reflexivity |]. split; [reflexivity |].
    split; [apply Hone | reflexivity].
  - eexists _, [_]. split; [reflexivity |]. split; [reflexivity |].
    split; [apply Hone | reflexivity].
  - destruct (negb (fid =? 0));
      (eexists _, [_]; split; [reflexivity |]; split; [reflexivity |];
       split; [apply Hone | reflexivity]).
  - eexists _, [_]. split; [reflexivity |]. split; [reflexivity |].
    split; [apply Hone | reflexivity].
  - exists [], []. repeat split. intros e [].
Qed.

(** X7. The dispatcher hands on what the translators return: an Error
    event whose code is not the lockout sentinel gives exactly one client
    callback, [onError] with the kind and the vendor code of
    [VendorErrorFilter] (so [onLockoutPermanent] is invoked for the
    sentinel only), and an Acquired event gives exactly [onAcquired] with
    the kind and the vendor code of [VendorAcquiredFilter]. *)
Theorem notify_translates (s : Session) (cb : ISessionCallback)
  (code : Z) (isOk : bool) :
  mSessionCallback s = Some cb ->
  (code <> FINGERPRINT_ERROR_LOCKOUT ->
   exists tr,
     notify (Some s) (FINGERPRINT_ERROR code) isOk = Some tr
     /\ client_calls tr
        = [onError (fst (fst (VendorErrorFilter code)))
             (snd (fst (VendorErrorFilter code)))])
  /\ exists tr,
       notify (Some s) (FINGERPRINT_ACQUIRED code) isOk = Some tr
       /\ client_calls tr
          = [onAcquired (fst (fst (VendorAcquiredFilter code)))
               (snd (fst (VendorAcquiredFilter code)))].
Proof.
  intros Hcb. unfold notify. rewrite Hcb. split.
  - intros Hcode.
    destruct (Z.eqb_spec FINGERPRINT_ERROR_LOCKOUT code) as [He | _];
      [congruence |].
    pose proof (VendorErrorFilter_silent code) as Hs.
    destruct (VendorErrorFilter code) as [[result vendorCode] tr].
    eexists. split; [reflexivity |].
    cbn in Hs |- *. rewrite client_calls_app, Hs.
    destruct isOk; reflexivity.
  - pose proof (VendorAcquiredFilter_silent code) as Hs.
    destruct (VendorAcquiredFilter code) as [[result vendorCode] tr].
    eexists. split; [reflexivity |].
    cbn in Hs |- *. rewrite client_calls_app, Hs.
    destruct isOk; reflexivity.
Qed.

End DispatcherMore.

(** X6 on the bench: a failing [onEnrollmentProgress]. *)
Lemma notify_failure_only_logged_witness :
  exists tr extra,
    notify (h := platform_header) (Some bench_session)
      (FINGERPRINT_TEMPLATE_ENROLLING 4) true = Some tr
    /\ notify (h := platform_header) (Some bench_session)
         (FINGERPRINT_TEMPLATE_ENROLLING 4) false = Some (tr ++ extra)
    /\ (forall e, In e extra -> exists fmt, e = Log ALOGE fmt [])
    /\ List.length extra = 1%nat.
Proof.
  exact (@notify_failure_only_logged platform_header _ _ bench_session
           1%nat (FINGERPRINT_TEMPLATE_ENROLLING 4) eq_refl).
Defined.

(** X7 on the bench: the code 3 is TIMEOUT as an error and SENSOR_DIRTY as
    an acquired info. *)
Lemma notify_translates_witness :
  (exists tr,
     notify (h := platform_header) (Some bench_session) (FINGERPRINT_ERROR 3)
       true = Some tr
     /\ client_calls tr = [onError Error.TIMEOUT 0])
  /\ exists tr,
       notify (h := platform_header) (Some bench_session)
         (FINGERPRINT_ACQUIRED 3) true = Some tr
       /\ client_calls tr = [onAcquired AcquiredInfo.SENSOR_DIRTY 0].
Proof.
  destruct (@notify_translates platform_header _ _ bench_session 1%nat 3
              true eq_refl) as [Herror Hacquired].
  split; [apply Herror; discriminate | exact Hacquired].
Defined.

(** ** What each action may do *)

(** The translators only log. *)
Lemma VendorErrorFilter_logs {h : fingerprint_h} (error : Z) :
  Forall (fun e => exists prio fmt args, e = Log prio fmt args)
    (snd (VendorErrorFilter error)).
Proof.
  unfold VendorErrorFilter.
  repeat match goal with
         | |- context [if ?c then _ else _] => destruct c
         end; cbn; repeat constructor.
  do 3 eexists. reflexivity.
Qed.

Lemma VendorAcquiredFilter_logs {h : fingerprint_h} (info : Z) :
  Forall (fun e => exists prio fmt args, e = Log prio fmt args)
    (snd (VendorAcquiredFilter info)).
Proof.
  unfold VendorAcquiredFilter.
  repeat match goal with
         | |- context [if ?c then _ else _] => destruct c
         end; cbn; repeat constructor.
  do 3 eexists. reflexivity.
Qed.

Section Discipline.
Context {h : fingerprint_h}.
Context {driver LockoutTracker : Type}.
Context (device : fingerprint_device_t driver).
Context (reset : bool -> LockoutTracker -> LockoutTracker).

Local Abbreviation Session := (Session driver LockoutTracker).
Local Abbreviation Process := (Process driver LockoutTracker).

(** The loop of [removeEnrollments], whenever it returns, has changed the
    driver only, and has only logged and called [remove] for the user of
    the session. *)
Lemma removeEnrollments_loop_discipline (enrollmentIds : list Z) :
  forall (s s' : Session) (tr : trace),
    removeEnrollments_loop device enrollmentIds s = Some (tt, s', tr) ->
    s' = with_mDevice (mDevice s') s
    /\ Forall (fun e => match e with
                        | Log _ _ _ => True
                        | Driver (call_remove gid _) => gid = mUserId s
                        | _ => False
                        end) tr.
Proof.
  induction enrollmentIds as [| enrollment rest IH]; intros s s' tr Hrun.
  - cbn in Hrun. injection Hrun as <- <-. destruct s. split; constructor.
  - cbn [removeEnrollments_loop] in Hrun.
    unfold bind at 1 in Hrun. unfold get in Hrun.
    unfold bind at 1 in Hrun. unfold call_driver in Hrun.
    destruct (remove device (mUserId s) enrollment (mDevice s))
      as [error d].
    unfold bind at 1 in Hrun.
    destruct (error =? 0).
    + unfold ret at 1 in Hrun.
      destruct (removeEnrollments_loop device rest (with_mDevice d s))
        as [[[[] s1] tr1] |] eqn:Hloop; [| discriminate].
      injection Hrun as <- <-.
      destruct (IH _ _ _ Hloop) as [Hs1 Htr1].
      split; [rewrite Hs1 at 1; reflexivity |].
      cbn. constructor; [reflexivity | exact Htr1].
    + unfold log, emit in Hrun.
      destruct (removeEnrollments_loop device rest (with_mDevice d s))
        as [[[[] s1] tr1] |] eqn:Hloop; [| discriminate].
      injection Hrun as <- <-.
      destruct (IH _ _ _ Hloop) as [Hs1 Htr1].
      split; [rewrite Hs1 at 1; reflexivity |].
      cbn. constructor; [reflexivity |]. constructor; [exact I | exact Htr1].
Qed.

(** Unfold an action down to the data members and the driver. *)
Ltac unfold_action H :=
  cbv beta iota delta
    [step serve run_member generateChallenge revokeChallenge authenticate
     detectInteraction enumerateEnrollments removeEnrollments
     getAuthenticatorId resetLockout
     clearLockout close onContextChanged onPointerEvent
     startLockoutTimer lockoutTimerExpired onClientDeath isClosed
     notify bind get ret emit log invoke call_driver call_reset
     set_mClosed set_mIsLockoutTimerStarted set_mIsLockoutTimerAborted]
    in H.

(** Close the goals about a trace that is written out, or that ends a
    trace of log lines. *)
Ltac close_allowed :=
  cbn;
  repeat split; intros; try reflexivity; try assumption; try discriminate;
  try lia; try (rewrite app_nil_r; reflexivity);
  try (repeat constructor; cbn; auto; fail);
  try (apply Forall_app; split;
       [ eapply Forall_impl; [| eassumption];
         intros ? (? & ? & ? & ->); exact I
       | repeat constructor; cbn; auto ]).

(** One action: the data members it keeps, and the effects it may have. *)
Lemma step_discipline (a : action) (p p' : Process) (tr : trace) :
  step device reset a p = Some (p', tr) ->
  mUserId (session p') = mUserId (session p)
  /\ mSessionCallback (session p') = mSessionCallback (session p)
  /\ (mClosed (session p) = true -> mClosed (session p') = true)
  /\ clock p <= clock p'
  /\ Forall (allowed a (mUserId (session p)) (mSessionCallback (session p)))
       tr
  /\ (uses_driver a = false -> mDevice (session p') = mDevice (session p))
  /\ (clears_lockout a = false ->
      mLockoutTracker (session p') = mLockoutTracker (session p))
  /\ (may_close a = false -> mClosed (session p') = mClosed (session p))
  /\ (is_Expire a = false ->
      sleepers p'
      = sleepers p
        ++ match a with
           | StartLockoutTimer timeout => [clock p + timeout]
           | _ => []
           end).
Proof.
  intros H.
  destruct a as [r | msg isOk | | timeout | ms | i].
  - destruct r as [| challenge | operationId | | | enrollmentIds | | | | |].
    6: { unfold_action H.
         destruct (removeEnrollments_loop device enrollmentIds (session p))
           as [[[[] s1] tr1] |] eqn:Hloop; [| discriminate].
         cbn beta iota zeta in H. injection H as <- <-.
         destruct (removeEnrollments_loop_discipline _ _ _ _ Hloop)
           as [Hs1 Htr1].
         assert (Hth : detached (clock p) tr1 = []).
         { clear - Htr1. induction Htr1 as [| e tr1 He _ IH]; [reflexivity |].
           destruct e; try contradiction; exact IH. }
         rewrite Hs1. cbn. rewrite !app_nil_r, Hth.
         repeat split; intros; try reflexivity; try assumption;
           try discriminate; try lia; try apply app_nil_r.
         constructor; [exact I |].
         eapply Forall_impl; [| exact Htr1].
         intros e He. destruct e as [| c | | | |]; try contradiction;
           [exact I |].
         destruct c; try contradiction. split; [reflexivity | exact He]. }
    all: unfold_action H; break_matches H; injection H as <- <-;
      close_allowed.
  - pose proof (VendorErrorFilter_logs
                  match msg with FINGERPRINT_ERROR error => error | _ => 0 end)
      as Herror.
    pose proof (VendorAcquiredFilter_logs
                  match msg with
                  | FINGERPRINT_ACQUIRED info => info
                  | _ => 0
                  end)
      as Hacquired.
    destruct msg; unfold_action H; break_matches H; injection H as <- <-;
      cbn [fst snd] in Herror, Hacquired; close_allowed.
  - unfold_action H; break_matches H; injection H as <- <-; close_allowed.
  - unfold_action H; break_matches H; injection H as <- <-; close_allowed.
  - injection H as <- <-. close_allowed.
  - unfold_action H; break_matches H; injection H as <- <-; close_allowed.
Qed.

(** *** From one action to a run *)

Lemma run_cons (a : action) (l : list action) (p p' : Process)
  (tr : trace) :
  run device reset (a :: l) p = Some (p', tr) ->
  exists p1 tr1 tr2,
    step device reset a p = Some (p1, tr1)
    /\ run device reset l p1 = Some (p', tr2)
    /\ tr = tr1 ++ tr2.
Proof.
  intros H. cbn [run] in H.
  destruct (step device reset a p) as [[p1 tr1] |] eqn:E1; [| discriminate].
  destruct (run device reset l p1) as [[p2 tr2] |] eqn:E2; [| discriminate].
  injection H as <- <-. exists p1, tr1, tr2.
  split; [reflexivity |]. split; [exact E2 | reflexivity].
Qed.

Lemma count_calls_app (f : callback -> bool) (tr1 tr2 : trace) :
  count_calls f (tr1 ++ tr2) = (count_calls f tr1 + count_calls f tr2)%nat.
Proof.
  unfold count_calls.
  rewrite client_calls_app, filter_app, length_app. reflexivity.
Qed.

Lemma tracker_resets_app (tr1 tr2 : trace) :
  tracker_resets (tr1 ++ tr2) = tracker_resets tr1 ++ tracker_resets tr2.
Proof.
  induction tr1 as [| e tr1 IH]; [reflexivity |].
  destruct e; cbn; rewrite IH; reflexivity.
Qed.

Lemma driver_calls_app (tr1 tr2 : trace) :
  driver_calls (tr1 ++ tr2) = driver_calls tr1 ++ driver_calls tr2.
Proof.
  induction tr1 as [| e tr1 IH]; [reflexivity |].
  destruct e; cbn; rewrite IH; reflexivity.
Qed.

(** What [allowed] rules out for the actions of each kind. *)
Lemma allowed_not_clearing (a : action) (uid : Z)
  (cb : option ISessionCallback) (tr : trace) :
  clears_lockout a = false ->
  Forall (allowed a uid cb) tr ->
  tracker_resets tr = [] /\ count_calls is_onLockoutCleared tr = 0%nat.
Proof.
  intros Ha Hall. induction Hall as [| e tr He _ [IH1 IH2]]; [split; reflexivity |].
  destruct e as [| | c k | | |]; cbn in He |- *; try (split; assumption).
  - destruct He as (_ & _ & Hk). unfold count_calls in *. cbn.
    destruct (is_onLockoutCleared k); [| split; assumption].
    specialize (Hk eq_refl). congruence.
  - congruence.
Qed.

Lemma allowed_not_driving (a : action) (uid : Z)
  (cb : option ISessionCallback) (tr : trace) :
  uses_driver a = false ->
  Forall (allowed a uid cb) tr ->
  driver_calls tr = [].
Proof.
  intros Ha Hall. induction Hall as [| e tr He _ IH]; [reflexivity |].
  destruct e; cbn in He |- *; try assumption.
  destruct He as [Hd _]. congruence.
Qed.

Lemma allowed_not_closing (a : action) (uid : Z)
  (cb : option ISessionCallback) (tr : trace) :
  may_close a = false ->
  Forall (allowed a uid cb) tr ->
  count_calls is_onSessionClosed tr = 0%nat.
Proof.
  intros Ha Hall. induction Hall as [| e tr He _ IH]; [reflexivity |].
  destruct e as [| | c k | | |]; cbn in He |- *; try assumption.
  destruct He as (_ & Hk & _). unfold count_calls in *. cbn.
  destruct (is_onSessionClosed k); [| assumption].
  specialize (Hk eq_refl). congruence.
Qed.

Lemma allowed_addressed (a : action) (uid : Z)
  (cb : option ISessionCallback) (e : effect) :
  allowed a uid cb e -> addressed uid cb e.
Proof.
  destruct e as [| c | c k | | |]; cbn; try tauto.
Qed.

(** A closed session stays closed through a run. *)
Lemma run_session_closed_stays (l : list action) :
  forall (p p' : Process) (tr : trace),
    run device reset l p = Some (p', tr) ->
    mClosed (session p) = true -> mClosed (session p') = true.
Proof.
  induction l as [| a l IH]; intros p p' tr Hrun Hclosed.
  - injection Hrun as <- <-. exact Hclosed.
  - destruct (run_cons _ _ _ _ _ Hrun) as (p1 & tr1 & tr2 & Hstep & Hrest & _).
    destruct (step_discipline _ _ _ _ Hstep) as (_ & _ & Hcl & _).
    exact (IH _ _ _ Hrest (Hcl Hclosed)).
Qed.

(** X8. Whatever the client, the driver and the timer threads do to a
    session, in whatever order: the user id and the session callback are
    never reassigned, a closed session is never reopened, and the clock
    does not go back. *)
Theorem run_session_invariants (l : list action) :
  forall (p p' : Process) (tr : trace),
    run device reset l p = Some (p', tr) ->
    mUserId (session p') = mUserId (session p)
    /\ mSessionCallback (session p') = mSessionCallback (session p)
    /\ (mClosed (session p) = true -> mClosed (session p') = true)
    /\ clock p <= clock p'.
Proof.
  induction l as [| a l IH]; intros p p' tr Hrun.
  - injection Hrun as <- <-. repeat split; [tauto | lia].
  - destruct (run_cons _ _ _ _ _ Hrun) as (p1 & tr1 & tr2 & Hstep & Hrest & _).
    destruct (step_discipline _ _ _ _ Hstep) as (Hu & Hc & Hcl & Hck & _).
    destruct (IH _ _ _ Hrest) as (Hu' & Hc' & Hcl' & Hck').
    repeat split; [congruence | congruence | tauto | lia].
Qed.

(** X9. Every effect of every run goes where it should: each client
    callback is invoked on the session callback the session started with,
    and each driver call that names a group ([authenticate], [remove])
    names the user of the session. *)
Theorem run_effects_addressed (l : list action) :
  forall (p p' : Process) (tr : trace),
    run device reset l p = Some (p', tr) ->
    Forall (addressed (mUserId (session p)) (mSessionCallback (session p)))
      tr.
Proof.
  induction l as [| a l IH]; intros p p' tr Hrun.
  - injection Hrun as <- <-. constructor.
  - destruct (run_cons _ _ _ _ _ Hrun)
      as (p1 & tr1 & tr2 & Hstep & Hrest & ->).
    destruct (step_discipline _ _ _ _ Hstep) as (Hu & Hc & _ & _ & Hall & _).
    apply Forall_app. split.
    + eapply Forall_impl; [| exact Hall]. intros e. apply allowed_addressed.
    + rewrite <- Hu, <- Hc. exact (IH _ _ _ Hrest).
Qed.

(** X10. The lockout state is cleared by [resetLockout] and by the expiry
    of a timer, and by nothing else: a run without these two leaves
    [mLockoutTracker] as it was, never calls its [reset] and never
    notifies [onLockoutCleared]. *)
Theorem run_lockout_untouched (l : list action) :
  forall (p p' : Process) (tr : trace),
    forallb (fun a => negb (clears_lockout a)) l = true ->
    run device reset l p = Some (p', tr) ->
    mLockoutTracker (session p') = mLockoutTracker (session p)
    /\ tracker_resets tr = []
    /\ count_calls is_onLockoutCleared tr = 0%nat.
Proof.
  induction l as [| a l IH]; intros p p' tr Hl Hrun.
  - injection Hrun as <- <-. repeat split.
  - cbn in Hl. apply andb_true_iff in Hl. destruct Hl as [Ha Hl].
    apply negb_true_iff in Ha.
    destruct (run_cons _ _ _ _ _ Hrun)
      as (p1 & tr1 & tr2 & Hstep & Hrest & ->).
    destruct (step_discipline _ _ _ _ Hstep)
      as (_ & _ & _ & _ & Hall & _ & Htracker & _).
    destruct (allowed_not_clearing _ _ _ _ Ha Hall) as [Hr1 Hn1].
    destruct (IH _ _ _ Hl Hrest) as (Ht2 & Hr2 & Hn2).
    rewrite tracker_resets_app, count_calls_app, Hr1, Hr2, Hn1, Hn2, Ht2.
    repeat split. exact (Htracker Ha).
Qed.

(** X11. [detectInteraction], [resetLockout], [close],
    [onContextChanged], the pointer events, the notifications of the driver,
    the death hook and the lockout timer never call the legacy driver: a run
    of these, in any order, makes no driver call and leaves the driver as
    it was. *)
Theorem run_driver_untouched (l : list action) :
  forall (p p' : Process) (tr : trace),
    forallb (fun a => negb (uses_driver a)) l = true ->
    run device reset l p = Some (p', tr) ->
    mDevice (session p') = mDevice (session p) /\ driver_calls tr = [].
Proof.
  induction l as [| a l IH]; intros p p' tr Hl Hrun.
  - injection Hrun as <- <-. repeat split.
  - cbn in Hl. apply andb_true_iff in Hl. destruct Hl as [Ha Hl].
    apply negb_true_iff in Ha.
    destruct (run_cons _ _ _ _ _ Hrun)
      as (p1 & tr1 & tr2 & Hstep & Hrest & ->).
    destruct (step_discipline _ _ _ _ Hstep)
      as (_ & _ & _ & _ & Hall & Hdev & _).
    destruct (IH _ _ _ Hl Hrest) as (Hd2 & Hc2).
    rewrite driver_calls_app, (allowed_not_driving _ _ _ _ Ha Hall), Hc2, Hd2.
    split; [exact (Hdev Ha) | reflexivity].
Qed.

(** The death hook notifies the closure when, and only when, it closes. *)
Lemma step_ClientDeath_count (p p' : Process) (tr : trace) :
  step device reset ClientDeath p = Some (p', tr) ->
  count_calls is_onSessionClosed tr
  = if negb (mClosed (session p)) && mClosed (session p')
    then 1%nat else 0%nat.
Proof.
  intros H. unfold_action H.
  break_matches H; injection H as <- <-; cbn; reflexivity.
Qed.

(** X12. As long as [close] is not requested directly, the client is told
    once, and only once, that the session closed, however often the death
    hook runs and whatever else happens: a run without a [close] request
    notifies [onSessionClosed] exactly once if it takes the session from
    open to closed, and never otherwise. *)
Theorem run_closed_notified_once (l : list action) :
  forall (p p' : Process) (tr : trace),
    forallb (fun a => negb (is_Close a)) l = true ->
    run device reset l p = Some (p', tr) ->
    count_calls is_onSessionClosed tr
    = if negb (mClosed (session p)) && mClosed (session p')
      then 1%nat else 0%nat.
Proof.
  induction l as [| a l IH]; intros p p' tr Hl Hrun.
  - injection Hrun as <- <-. cbn. destruct (mClosed (session p)); reflexivity.
  - cbn in Hl. apply andb_true_iff in Hl. destruct Hl as [Ha Hl].
    apply negb_true_iff in Ha.
    destruct (run_cons _ _ _ _ _ Hrun)
      as (p1 & tr1 & tr2 & Hstep & Hrest & ->).
    rewrite count_calls_app, (IH _ _ _ Hl Hrest).
    pose proof (run_session_closed_stays l _ _ _ Hrest) as Hstay.
    destruct (step_discipline _ _ _ _ Hstep)
      as (_ & _ & Hmono & _ & Hall & _ & _ & Hsame & _).
    assert (Hcases : may_close a = false \/ a = ClientDeath).
    { destruct a as [r | | | | |]; try (left; reflexivity);
        [| right; reflexivity].
      destruct r; try (left; reflexivity). discriminate. }
    destruct Hcases as [Hnc | ->].
    + rewrite (allowed_not_closing _ _ _ _ Hnc Hall), (Hsame Hnc).
      reflexivity.
    + rewrite (step_ClientDeath_count _ _ _ Hstep).
      destruct (mClosed (session p)) eqn:Hp;
        destruct (mClosed (session p1)) eqn:Hp1;
        destruct (mClosed (session p')) eqn:Hp'; cbn; try reflexivity;
        try (specialize (Hmono eq_refl); discriminate);
        try (specialize (Hstay eq_refl); discriminate).
Qed.

(** X13. A sleeping timer thread is never cancelled: in a run in which
    no thread wakes, the threads asleep at the start are all still asleep
    at the end, in the same order, followed by one new thread for every
    [startLockoutTimer]; [resetLockout], [close], the death hook and a
    restart leave them alone. *)
Theorem run_keeps_sleepers (l : list action) :
  forall (p p' : Process) (tr : trace),
    forallb (fun a => negb (is_Expire a)) l = true ->
    run device reset l p = Some (p', tr) ->
    exists new,
      sleepers p' = sleepers p ++ new
      /\ List.length new = count_actions is_StartLockoutTimer l.
Proof.
  induction l as [| a l IH]; intros p p' tr Hl Hrun.
  - injection Hrun as <- <-. exists []. split; [| reflexivity].
    symmetry. apply app_nil_r.
  - cbn in Hl. apply andb_true_iff in Hl. destruct Hl as [Ha Hl].
    apply negb_true_iff in Ha.
    destruct (run_cons _ _ _ _ _ Hrun)
      as (p1 & tr1 & tr2 & Hstep & Hrest & _).
    destruct (step_discipline _ _ _ _ Hstep)
      as (_ & _ & _ & _ & _ & _ & _ & _ & Hsl).
    specialize (Hsl Ha).
    destruct (IH _ _ _ Hl Hrest) as (new & Hnew & Hlen).
    rewrite Hnew, Hsl, <- app_assoc.
    eexists. split; [reflexivity |].
    rewrite length_app, Hlen. unfold count_actions.
    destruct a; reflexivity.
Qed.

End Discipline.

(** X8 on the bench: a failed removal, a close, a notification, the death
    of the client, a timer and its expiry. *)
Lemma run_session_invariants_witness :
  exists p' tr,
    bench_run [Request (RemoveEnrollments [1; 2; 3]); StartLockoutTimer 5;
               Request Close; Notify (FINGERPRINT_ACQUIRED 0) true;
               ClientDeath; Elapse 5%N; Expire 0]
      bench_process = Some (p', tr)
    /\ mUserId (session p') = mUserId (session bench_process)
    /\ mSessionCallback (session p') = mSessionCallback (session bench_process)
    /\ (mClosed (session bench_process) = true -> mClosed (session p') = true)
    /\ clock bench_process <= clock p'.
Proof.
  do 2 eexists. split; [vm_compute; reflexivity |].
  eapply (@run_session_invariants platform_header _ _ bench_device bench_reset
           [Request (RemoveEnrollments [1; 2; 3]); StartLockoutTimer 5;
            Request Close; Notify (FINGERPRINT_ACQUIRED 0) true;
            ClientDeath; Elapse 5%N; Expire 0]
           bench_process).
  vm_compute. reflexivity.
Defined.

(** X9 on the bench. *)
Lemma run_effects_addressed_witness :
  exists p' tr,
    bench_run [Request (Authenticate 7); Request (RemoveEnrollments [1; 2]);
               Request ResetLockout; Notify (FINGERPRINT_ERROR 7) true]
      bench_process = Some (p', tr)
    /\ Forall (addressed (mUserId (session bench_process))
                 (mSessionCallback (session bench_process))) tr.
Proof.
  do 2 eexists. split; [vm_compute; reflexivity |].
  eapply (@run_effects_addressed platform_header _ _ bench_device bench_reset
           [Request (Authenticate 7); Request (RemoveEnrollments [1; 2]);
            Request ResetLockout; Notify (FINGERPRINT_ERROR 7) true]
           bench_process).
  vm_compute. reflexivity.
Defined.

(** X10 on the bench: a timer started and the session closed, but no reset
    and no expiry. *)
Lemma run_lockout_untouched_witness :
  exists p' tr,
    bench_run [StartLockoutTimer 30000; Request (Authenticate 7);
               Notify (FINGERPRINT_ERROR 7) true; Request Close]
      bench_process = Some (p', tr)
    /\ mLockoutTracker (session p') = mLockoutTracker (session bench_process)
    /\ tracker_resets tr = []
    /\ count_calls is_onLockoutCleared tr = 0%nat.
Proof.
  do 2 eexists. split; [vm_compute; reflexivity |].
  eapply (@run_lockout_untouched platform_header _ _ bench_device bench_reset
           [StartLockoutTimer 30000; Request (Authenticate 7);
            Notify (FINGERPRINT_ERROR 7) true; Request Close]
           bench_process).
  - reflexivity.
  - vm_compute. reflexivity.
Defined.

(** X11 on the bench. *)
Lemma run_driver_untouched_witness :
  exists p' tr,
    bench_run [Request DetectInteraction; Request ResetLockout;
               Notify (FINGERPRINT_TEMPLATE_REMOVED 2) true;
               StartLockoutTimer 0; Expire 0; Request Close]
      bench_process = Some (p', tr)
    /\ mDevice (session p') = mDevice (session bench_process)
    /\ driver_calls tr = [].
Proof.
  do 2 eexists. split; [vm_compute; reflexivity |].
  eapply (@run_driver_untouched platform_header _ _ bench_device bench_reset
           [Request DetectInteraction; Request ResetLockout;
            Notify (FINGERPRINT_TEMPLATE_REMOVED 2) true;
            StartLockoutTimer 0; Expire 0; Request Close]
           bench_process).
  - reflexivity.
  - vm_compute. reflexivity.
Defined.

(** X12 on the bench: the client dies twice over. *)
Lemma run_closed_notified_once_witness :
  exists p' tr,
    bench_run [ClientDeath; Request (Authenticate 7); ClientDeath;
               ClientDeath]
      bench_process = Some (p', tr)
    /\ count_calls is_onSessionClosed tr
       = if negb (mClosed (session bench_process)) && mClosed (session p')
         then 1%nat else 0%nat.
Proof.
  do 2 eexists. split; [vm_compute; reflexivity |].
  eapply (@run_closed_notified_once platform_header _ _ bench_device
           bench_reset
           [ClientDeath; Request (Authenticate 7); ClientDeath; ClientDeath]
           bench_process).
  - reflexivity.
  - vm_compute. reflexivity.
Defined.

(** X13 on the bench: two timers, a reset and a close, and both threads
    still asleep. *)
Lemma run_keeps_sleepers_witness :
  exists p' tr,
    bench_run [StartLockoutTimer 30000; Request ResetLockout;
               StartLockoutTimer 100; Request Close]
      bench_process = Some (p', tr)
    /\ exists new,
         sleepers p' = sleepers bench_process ++ new
         /\ List.length new = 2%nat.
Proof.
  do 2 eexists. split; [vm_compute; reflexivity |].
  eapply (@run_keeps_sleepers platform_header _ _ bench_device bench_reset
           [StartLockoutTimer 30000; Request ResetLockout;
            StartLockoutTimer 100; Request Close]
           bench_process).
  - reflexivity.
  - vm_compute. reflexivity.
Defined.
